(** * StreetEasy apartment tracker: fetch, extract, deduplicate

    A shallow embedding of [apartment_tracker.py] (class [ApartmentTracker])
    and the properties of its fetch-extract-deduplicate pipeline.

    Conventions of the embedding.
    - A Python [str] is represented by the byte sequence of its UTF-8
      encoding, as a [string].  [str.encode()] is then the identity on the
      representation.  The character classes used by the source
      ([str.split()], [str.strip()], [str.lower()], the regular expression
      class [\d]) are modelled on ASCII; bytes above 127 are neither
      whitespace, digits nor cased letters.
    - [None] is [None] of an [option]; a dictionary with a fixed set of keys
      is a record.
    - The SQLite table [apartments] is a finite map from the primary key
      [id] to the remaining columns.
    - The network, the random generator and the clock are oracles indexed
      by the number of calls made so far; the calls themselves are recorded
      in the state.
    - Log messages and the delivery of the notification are left out; the
      list that a cycle hands to the notifier is the result of the cycle. *)

From Stdlib Require Import ZArith List Ascii String Bool Lia.
From stdpp Require Import base option list strings gmap fin_maps pretty.

Open Scope string_scope.

(** ** Python string operations *)

Module PyStr.

(** [s.startswith(p)] *)
Definition startswith (s p : string) : bool := String.prefix p s.

(** [sub in s] *)
Fixpoint contains (sub s : string) : bool :=
  match s with
  | EmptyString => String.prefix sub EmptyString
  | String _ s' => String.prefix sub s || contains sub s'
  end.

(** [s.split(sep)[0]] for a non-empty separator: the part of [s] before
    the first occurrence of [sep], all of [s] when there is none. *)
Fixpoint before (sep s : string) : string :=
  match s with
  | EmptyString => EmptyString
  | String c s' => if String.prefix sep s then EmptyString else String c (before sep s')
  end.

(** Whitespace of [str.isspace] below 128. *)
Definition is_space (c : ascii) : bool :=
  let n := nat_of_ascii c in
  (((9 <=? n) && (n <=? 13)) || ((28 <=? n) && (n <=? 32)))%nat.

Definition is_empty (s : string) : bool :=
  match s with EmptyString => true | _ => false end.

Fixpoint lstrip (s : string) : string :=
  match s with
  | EmptyString => EmptyString
  | String c s' => if is_space c then lstrip s' else s
  end.

Fixpoint rstrip (s : string) : string :=
  match s with
  | EmptyString => EmptyString
  | String c s' =>
      let r := rstrip s' in
      if is_space c && is_empty r then EmptyString else String c r
  end.

(** [s.strip()] *)
Definition strip (s : string) : string := rstrip (lstrip s).

Definition cons_word (w : string) (ws : list string) : list string :=
  if is_empty w then ws else w :: ws.

(** The word that starts at the head of [s] (empty when [s] starts with
    whitespace) and the words after it. *)
Fixpoint split_from (s : string) : string * list string :=
  match s with
  | EmptyString => (EmptyString, [])
  | String c s' =>
      let '(w, ws) := split_from s' in
      if is_space c then (EmptyString, cons_word w ws) else (String c w, ws)
  end.

(** [s.split()] *)
Definition split (s : string) : list string :=
  let '(w, ws) := split_from s in cons_word w ws.

(** [sep.join(parts)] *)
Definition join (sep : string) (parts : list string) : string :=
  String.concat sep parts.

Definition lower_char (c : ascii) : ascii :=
  let n := nat_of_ascii c in
  if ((65 <=? n) && (n <=? 90))%nat then ascii_of_nat (n + 32) else c.

(** [s.lower()] *)
Fixpoint lower (s : string) : string :=
  match s with
  | EmptyString => EmptyString
  | String c s' => String (lower_char c) (lower s')
  end.

(** [parts[:-1]] *)
Definition drop_last (parts : list string) : list string := removelast parts.

(** Truthiness of a [str]. *)
Definition truthy (s : string) : bool := negb (is_empty s).

(** The class [[\d,]] and the leftmost match of [\$[\d,]+]
    ([re.search(...).group(0)]). *)
Definition is_digit_or_comma (c : ascii) : bool :=
  let n := nat_of_ascii c in
  (((48 <=? n) && (n <=? 57)) || (n =? 44))%nat.

Fixpoint take_digits_commas (s : string) : string :=
  match s with
  | EmptyString => EmptyString
  | String c s' =>
      if is_digit_or_comma c then String c (take_digits_commas s') else EmptyString
  end.

Fixpoint search_dollar_amount (s : string) : option string :=
  match s with
  | EmptyString => None
  | String c s' =>
      if Ascii.eqb c "$"%char then
        match take_digits_commas s' with
        | EmptyString => search_dollar_amount s'
        | ds => Some (String c ds)
        end
      else search_dollar_amount s'
  end.

End PyStr.

(** ** MD5 (RFC 1321), the digest behind [hashlib.md5(...).hexdigest()] *)

Module MD5.

Local Open Scope Z_scope.

Definition wrap32 (x : Z) : Z := x mod 2 ^ 32.
Definition add32 (a b : Z) : Z := wrap32 (a + b).
Definition not32 (x : Z) : Z := Z.lxor x (2 ^ 32 - 1).
Definition rotl32 (x c : Z) : Z :=
  Z.lor (wrap32 (Z.shiftl x c)) (Z.shiftr x (32 - c)).

Definition shifts : list Z :=
  [7; 12; 17; 22; 7; 12; 17; 22; 7; 12; 17; 22; 7; 12; 17; 22;
   5; 9; 14; 20; 5; 9; 14; 20; 5; 9; 14; 20; 5; 9; 14; 20;
   4; 11; 16; 23; 4; 11; 16; 23; 4; 11; 16; 23; 4; 11; 16; 23;
   6; 10; 15; 21; 6; 10; 15; 21; 6; 10; 15; 21; 6; 10; 15; 21].

(** [floor (2^32 * abs (sin (i + 1)))] for [i] from 0 to 63. *)
Definition sines : list Z :=
  [0xd76aa478; 0xe8c7b756; 0x242070db; 0xc1bdceee;
   0xf57c0faf; 0x4787c62a; 0xa8304613; 0xfd469501;
   0x698098d8; 0x8b44f7af; 0xffff5bb1; 0x895cd7be;
   0x6b901122; 0xfd987193; 0xa679438e; 0x49b40821;
   0xf61e2562; 0xc040b340; 0x265e5a51; 0xe9b6c7aa;
   0xd62f105d; 0x02441453; 0xd8a1e681; 0xe7d3fbc8;
   0x21e1cde6; 0xc33707d6; 0xf4d50d87; 0x455a14ed;
   0xa9e3e905; 0xfcefa3f8; 0x676f02d9; 0x8d2a4c8a;
   0xfffa3942; 0x8771f681; 0x6d9d6122; 0xfde5380c;
   0xa4beea44; 0x4bdecfa9; 0xf6bb4b60; 0xbebfbc70;
   0x289b7ec6; 0xeaa127fa; 0xd4ef3085; 0x04881d05;
   0xd9d4d039; 0xe6db99e5; 0x1fa27cf8; 0xc4ac5665;
   0xf4292244; 0x432aff97; 0xab9423a7; 0xfc93a039;
   0x655b59c3; 0x8f0ccc92; 0xffeff47d; 0x85845dd1;
   0x6fa87e4f; 0xfe2ce6e0; 0xa3014314; 0x4e0811a1;
   0xf7537e82; 0xbd3af235; 0x2ad7d2bb; 0xeb86d391].

Definition nthZ (l : list Z) (i : Z) : Z := nth (Z.to_nat i) l 0.

Record regs := Regs { rA : Z; rB : Z; rC : Z; rD : Z }.

Definition init : regs :=
  Regs 0x67452301 0xefcdab89 0x98badcfe 0x10325476.

(** One of the 64 operations on a 16-word block [m]. *)
Definition step (m : list Z) (r : regs) (i : Z) : regs :=
  let '(Regs a b c d) := r in
  let '(f, g) :=
    if i <? 16 then (Z.lor (Z.land b c) (Z.land (not32 b) d), i)
    else if i <? 32 then (Z.lor (Z.land d b) (Z.land (not32 d) c), (5 * i + 1) mod 16)
    else if i <? 48 then (Z.lxor (Z.lxor b c) d, (3 * i + 5) mod 16)
    else (Z.lxor c (Z.lor b (not32 d)), (7 * i) mod 16) in
  let f' := add32 (add32 (add32 f a) (nthZ sines i)) (nthZ m g) in
  Regs d (add32 b (rotl32 f' (nthZ shifts i))) b c.

Definition rounds : list Z := map Z.of_nat (seq 0 64).

Definition compress (r : regs) (m : list Z) : regs :=
  let r' := fold_left (step m) rounds r in
  Regs (add32 (rA r) (rA r')) (add32 (rB r) (rB r'))
       (add32 (rC r) (rC r')) (add32 (rD r) (rD r')).

(** Little-endian bytes of a word and back. *)
Definition le_bytes (n : nat) (x : Z) : list Z :=
  map (fun k => Z.land (Z.shiftr x (8 * Z.of_nat k)) 255) (seq 0 n).

Fixpoint le_word (bs : list Z) : Z :=
  match bs with
  | [] => 0
  | b :: bs' => b + 256 * le_word bs'
  end.

(** The message followed by the bit 1, zeros up to 56 modulo 64, and the
    bit length on 64 bits. *)
Definition pad (msg : list Z) : list Z :=
  let n := Z.of_nat (List.length msg) in
  let zeros := Z.to_nat ((55 - n) mod 64) in
  msg ++ [128] ++ repeat 0 zeros ++ le_bytes 8 ((8 * n) mod 2 ^ 64).

(** Cut a byte sequence into groups of [k] bytes; [fuel] bounds the
    number of groups. *)
Fixpoint chunks (fuel k : nat) (bs : list Z) : list (list Z) :=
  match fuel with
  | O => []
  | S fuel' =>
      match bs with
      | [] => []
      | _ => firstn k bs :: chunks fuel' k (skipn k bs)
      end
  end.

Definition words_of_block (block : list Z) : list Z :=
  map le_word (chunks 16 4 block).

Definition blocks (bs : list Z) : list (list Z) :=
  map words_of_block (chunks (List.length bs) 64 bs).

Definition digest (msg : list Z) : list Z :=
  let r := fold_left compress (blocks (pad msg)) init in
  le_bytes 4 (rA r) ++ le_bytes 4 (rB r) ++ le_bytes 4 (rC r) ++ le_bytes 4 (rD r).

Definition hex_digit (x : Z) : ascii :=
  if x <? 10 then ascii_of_nat (48 + Z.to_nat x) else ascii_of_nat (87 + Z.to_nat x).

Fixpoint hex (bs : list Z) : string :=
  match bs with
  | [] => EmptyString
  | b :: bs' => String (hex_digit (b / 16)) (String (hex_digit (b mod 16)) (hex bs'))
  end.

(** [hashlib.md5(msg).hexdigest()] *)
Definition hexdigest (msg : list Z) : string := hex (digest msg).

End MD5.

(** [s.encode()]: the bytes of the UTF-8 encoding. *)
Definition encode (s : string) : list Z :=
  map (fun c => Z.of_nat (nat_of_ascii c)) (list_ascii_of_string s).

(** ** BeautifulSoup tags

    A tag is observed through the three operations the source uses on it:
    [tag.get(name)], [tag.get_text(strip=True)] and [tag.select(selector)],
    the matches of a CSS selector below the tag in document order. *)

#[local] Unset Elimination Schemes.
Inductive Tag : Type :=
  mkTag {
    attrs : list (string * string);
    get_text_strip : string;
    select : string -> list Tag
  }.
#[local] Set Elimination Schemes.

(** [tag.get(name)], [None] when the attribute is absent. *)
Fixpoint lookup_attr (name : string) (l : list (string * string)) : option string :=
  match l with
  | [] => None
  | (k, v) :: l' => if String.eqb k name then Some v else lookup_attr name l'
  end.

Definition get (t : Tag) (name : string) : option string :=
  lookup_attr name (attrs t).

(** [tag.get(name, d)] *)
Definition get_default (t : Tag) (name d : string) : string :=
  match get t name with Some v => v | None => d end.

(** [tag.select_one(selector)]: the first match, if any. *)
Definition select_one (t : Tag) (selector : string) : option Tag :=
  head (select t selector).

(** [a or b] on optional tags; a tag is always truthy. *)
Definition or_tag (a b : option Tag) : option Tag :=
  match a with Some _ => a | None => b end.

(** [a or b] on optional strings; [None] and the empty string are falsy. *)
Definition or_str (a b : option string) : option string :=
  match a with
  | Some s => if PyStr.truthy s then a else b
  | None => b
  end.

(** The first tag found by a list of selectors tried in order
    ([for selector in selectors: ... if elem: ... break]). *)
Fixpoint first_match (card : Tag) (selectors : list string) : option Tag :=
  match selectors with
  | [] => None
  | selector :: rest =>
      match select_one card selector with
      | Some e => Some e
      | None => first_match card rest
      end
  end.

(** ** Listings *)

Module Listing.
Record t : Type :=
  mk {
    id : string;
    title : string;
    price : string;
    address : string;
    url : string;
    bedrooms : string;
    bathrooms : string;
    sqft : string;
    image_url : option string
  }.
End Listing.

(** A row of the table [apartments]: the columns of a listing and the
    [first_seen] timestamp. *)
Record row : Type :=
  mkRow {
    columns : Listing.t;
    first_seen : Z
  }.

(** ** The tracker and its environment *)

Record Response : Type :=
  mkResponse {
    status_code : Z;
    content : Tag
  }.

(** What [session.get] does: it returns a response or raises
    [requests.exceptions.RequestException]. *)
Inductive reply : Type :=
| Replied (response : Response)
| TransportError.

Record Env : Type :=
  mkEnv {
    (** the reply to a request, given the number of requests sent before
        it, its url and its [User-Agent] header *)
    network : nat -> string -> string -> reply;
    (** the index that [random.choice] picks, given the number of earlier
        picks *)
    dice : nat -> nat;
    (** [CURRENT_TIMESTAMP], given the number of earlier inserts *)
    clock : nat -> Z
  }.

Record ApartmentTracker : Type :=
  mkTracker {
    url : string;
    (** [self.session.headers['User-Agent']] *)
    user_agent : string;
    (** the table [apartments] of the database at [self.db_path] *)
    db : gmap string row;
    (** the [User-Agent] of every request sent, oldest first *)
    sent : list string;
    (** the number of [time.sleep] calls *)
    naps : nat;
    (** the number of [random.choice] calls *)
    picks : nat;
    (** the number of [INSERT] statements executed *)
    inserts : nat
  }.

Inductive exn : Type :=
| RequestException (msg : string).

Inductive result (A : Type) : Type :=
| Return (a : A)
| Raise (e : exn).

Arguments Return {A} a.
Arguments Raise {A} e.

Definition default_user_agent : string :=
  "Mozilla/5.0 (Macintosh; Intel Mac OS X 10_15_7) AppleWebKit/537.36 (KHTML, like Gecko) Chrome/120.0.0.0 Safari/537.36".

(** [ApartmentTracker()] over an existing table; [CREATE TABLE IF NOT
    EXISTS] keeps the rows that are there. *)
Definition new_tracker (se_url : string) (table : gmap string row) : ApartmentTracker :=
  mkTracker se_url default_user_agent table [] 0 0 0.

Definition user_agents : list string :=
  [ "Mozilla/5.0 (Windows NT 10.0; Win64; x64) AppleWebKit/537.36 (KHTML, like Gecko) Chrome/120.0.0.0 Safari/537.36";
    "Mozilla/5.0 (Macintosh; Intel Mac OS X 10_15_7) AppleWebKit/605.1.15 (KHTML, like Gecko) Version/17.1 Safari/605.1.15";
    "Mozilla/5.0 (X11; Linux x86_64) AppleWebKit/537.36 (KHTML, like Gecko) Chrome/120.0.0.0 Safari/537.36" ].

(** The sentinel of a field that was not found. *)
Definition unknown : string := "N/A".

Definition base_origin : string := "https://streeteasy.com".

(** *** State updates *)

Definition sleep (self : ApartmentTracker) : ApartmentTracker :=
  mkTracker (url self) (user_agent self) (db self) (sent self)
            (S (naps self)) (picks self) (inserts self).

(** [self.session.get(target, timeout=30)] *)
Definition session_get (env : Env) (target : string) (self : ApartmentTracker)
  : reply * ApartmentTracker :=
  (network env (List.length (sent self)) target (user_agent self),
   mkTracker (url self) (user_agent self) (db self)
             (sent self ++ [user_agent self])
             (naps self) (picks self) (inserts self)).

(** [self.session.headers['User-Agent'] = random.choice(pool)] *)
Definition rotate_user_agent (env : Env) (pool : list string) (self : ApartmentTracker)
  : ApartmentTracker :=
  let choice := nth (dice env (picks self) mod List.length pool) pool EmptyString in
  mkTracker (url self) choice (db self) (sent self)
            (naps self) (S (picks self)) (inserts self).

(** ** [generate_listing_id] *)

Definition generate_listing_id (self : ApartmentTracker) (title address price : string)
  : string :=
  let unique_string := title +:+ "_" +:+ address +:+ "_" +:+ price in
  MD5.hexdigest (encode unique_string).

(** ** [get_page_with_retry] *)

(** The default of the parameter [max_retries]. *)
Definition default_max_retries : Z := 3.

(** [range(n)] *)
Definition range (n : Z) : list Z := map Z.of_nat (seq 0 (Z.to_nat n)).

(** The [for attempt in ...] loop over the attempts still to make.  [Some]
    is the [return] inside the loop, [None] is the loop running out. *)
Fixpoint retry_loop (env : Env) (target : string) (max_retries : Z)
    (attempts : list Z) (self : ApartmentTracker)
  : option Response * ApartmentTracker :=
  match attempts with
  | [] => (None, self)
  | attempt :: rest =>
      let self := if (0 <? attempt)%Z then sleep self else self in
      let '(r, self) := session_get env target self in
      match r with
      | Replied response =>
          if (status_code response =? 200)%Z then (Some response, self)
          else if (status_code response =? 403)%Z then
            if (attempt <? max_retries - 1)%Z then
              retry_loop env target max_retries rest
                         (rotate_user_agent env user_agents self)
            else
              retry_loop env target max_retries rest self
          else
            retry_loop env target max_retries rest self
      | TransportError =>
          retry_loop env target max_retries rest self
      end
  end.

Definition get_page_with_retry (env : Env) (target : string) (max_retries : Z)
    (self : ApartmentTracker) : result Response * ApartmentTracker :=
  match retry_loop env target max_retries (range max_retries) self with
  | (Some response, self') => (Return response, self')
  | (None, self') =>
      (Raise (RequestException
                ("Failed to fetch page after " +:+ pretty max_retries +:+ " attempts")),
       self')
  end.

(** ** [scrape_listings] *)

Definition dq : string := String "034"%char EmptyString.

(** The selector [[name op "value"]]. *)
Definition attr_selector (name op value : string) : string :=
  "[" +:+ name +:+ op +:+ dq +:+ value +:+ dq +:+ "]".

Definition card_selector : string := attr_selector "data-testid" "=" "listing-card".

Definition title_selectors : list string :=
  [ attr_selector "data-testid" "=" "listing-title";
    ".ListingCard-module__address__";
    ".address";
    "h3";
    "h2";
    attr_selector "class" "*=" "address";
    attr_selector "class" "*=" "title" ].

Definition price_selectors : list string :=
  [ ".PriceInfo-module__priceText___Ej9Ej";
    ".price";
    attr_selector "data-testid" "=" "price";
    ".ListingDetails-module__price___";
    attr_selector "class" "*=" "price";
    attr_selector "class" "*=" "Price";
    ".rent-price";
    ".listing-price" ].

Definition street_keywords : list string :=
  [ "street"; "avenue"; "road"; "place"; "drive" ].

Definition beds_baths_selector : string := ".BedsBathsSqft-module__bedsBathsSqft___QFOK-".
Definition beds_baths_item_selector : string := ".BedsBathsSqft-module__text___lnveO".

(** The area marker as it is spelled in the source. *)
Definition area_marker : string := "ft¬≤".

(** Prefix the origin unless the link starts with [http]. *)
Definition absolute (link : string) : string :=
  if PyStr.startswith link "http" then link else base_origin +:+ link.

(** The link element: the listing link of the image container, else a link
    to a rental, else a link to a building. *)
Definition find_link (card : Tag) : option Tag :=
  match select_one card "a.ImageContainer-module__listingLink___sYIL9" with
  | Some e => Some e
  | None =>
      or_tag (select_one card ("a" +:+ attr_selector "href" "*=" "/rental/"))
             (select_one card ("a" +:+ attr_selector "href" "*=" "/building/"))
  end.

Definition find_image (card : Tag) : option Tag :=
  match select_one card "img.CardImage-module__cardImage__cirIn" with
  | Some e => Some e
  | None =>
      or_tag (select_one card "img")
             (select_one card (attr_selector "data-testid" "=" "listing-image" +:+ " img"))
  end.

(** The title and the image url read from the image element. *)
Definition title_and_image (img_elem : option Tag) : string * option string :=
  match img_elem with
  | None => (unknown, None)
  | Some img =>
      let alt_text := get_default img "alt" EmptyString in
      let title :=
        if PyStr.truthy alt_text then
          if PyStr.contains "image" alt_text
          then PyStr.strip (PyStr.before "image" alt_text)
          else PyStr.strip alt_text
        else unknown in
      let image_url := or_str (get img "src") (get img "data-src") in
      let image_url :=
        match image_url with
        | Some u =>
            if PyStr.truthy u && negb (PyStr.startswith u "http")
            then Some (base_origin +:+ u) else Some u
        | None => None
        end in
      (title, image_url)
  end.

(** The title after the second cascade. *)
Definition title_fallback (card : Tag) (title : string) : string :=
  if String.eqb title unknown then
    match first_match card title_selectors with
    | Some title_elem => get_text_strip title_elem
    | None => title
    end
  else title.

Definition clean_price (raw_price : string) : string :=
  match PyStr.search_dollar_amount raw_price with
  | Some m => m
  | None =>
      let price :=
        PyStr.strip (PyStr.before "rent" (PyStr.before "net" (PyStr.before "base" raw_price))) in
      if PyStr.startswith price "$" then price else unknown
  end.

Definition extract_price (card : Tag) : string :=
  match first_match card price_selectors with
  | Some price_elem => clean_price (get_text_strip price_elem)
  | None => unknown
  end.

Definition has_street_keyword (title : string) : bool :=
  existsb (fun word => PyStr.contains word (PyStr.lower title)) street_keywords.

Definition extract_address (title : string) : string :=
  if negb (String.eqb title unknown) && has_street_keyword title then
    let address_parts := PyStr.split title in
    if (3 <=? List.length address_parts)%nat
    then PyStr.join " " (PyStr.drop_last address_parts)
    else unknown
  else unknown.

(** One turn of the loop over the items of the beds/baths container, on
    the triple (bedrooms, bathrooms, sqft). *)
Definition classify_item (acc : string * string * string) (item : Tag)
  : string * string * string :=
  let '(bedrooms, bathrooms, sqft) := acc in
  let text := PyStr.lower (get_text_strip item) in
  if PyStr.contains "bed" text then (get_text_strip item, bathrooms, sqft)
  else if PyStr.contains "bath" text then (bedrooms, get_text_strip item, sqft)
  else if PyStr.contains area_marker text then (bedrooms, bathrooms, get_text_strip item)
  else acc.

Definition extract_beds_baths_sqft (card : Tag) : string * string * string :=
  match select_one card beds_baths_selector with
  | Some beds_baths_container =>
      fold_left classify_item (select beds_baths_container beds_baths_item_selector)
                (unknown, unknown, unknown)
  | None => (unknown, unknown, unknown)
  end.

(** The body of the loop over the cards: [Some] is the listing appended,
    [None] is a [continue]. *)
Definition scrape_card (self : ApartmentTracker) (card : Tag) : option Listing.t :=
  match find_link card with
  | None => None
  | Some link_elem =>
      let full_url := absolute (get_default link_elem "href" EmptyString) in
      let '(title, image_url) := title_and_image (find_image card) in
      let title := title_fallback card title in
      let price := extract_price card in
      let address := extract_address title in
      let '(bedrooms, bathrooms, sqft) := extract_beds_baths_sqft card in
      if String.eqb title unknown || negb (PyStr.truthy full_url) then None
      else
        Some (Listing.mk (generate_listing_id self title address price)
                         title price address full_url
                         bedrooms bathrooms sqft image_url)
  end.

(** The listings of a parsed page. *)
Definition scrape_page (self : ApartmentTracker) (soup : Tag) : list Listing.t :=
  let apartment_cards := select soup card_selector in
  match apartment_cards with
  | [] => []
  | _ => omap (scrape_card self) apartment_cards
  end.

(** The [try] block of [scrape_listings]. *)
Definition scrape_listings_try (env : Env) (self : ApartmentTracker)
  : result (list Listing.t) * ApartmentTracker :=
  match get_page_with_retry env (url self) default_max_retries self with
  | (Return response, self') => (Return (scrape_page self' (content response)), self')
  | (Raise e, self') => (Raise e, self')
  end.

(** [scrape_listings]: any exception of the block gives the empty list. *)
Definition scrape_listings (env : Env) (self : ApartmentTracker)
  : list Listing.t * ApartmentTracker :=
  match scrape_listings_try env self with
  | (Return listings, self') => (listings, self')
  | (Raise _, self') => ([], self')
  end.

(** ** The store *)

Definition is_new_listing (self : ApartmentTracker) (listing_id : string) : bool :=
  match db self !! listing_id with
  | None => true
  | Some _ => false
  end.

(** [INSERT OR IGNORE]: a row whose key is taken is left as it is. *)
Definition insert_or_ignore (key : string) (r : row) (table : gmap string row)
  : gmap string row :=
  match table !! key with
  | Some _ => table
  | None => <[key := r]> table
  end.

Definition save_listing (env : Env) (listing : Listing.t) (self : ApartmentTracker)
  : ApartmentTracker :=
  let r := mkRow listing (clock env (inserts self)) in
  mkTracker (url self) (user_agent self)
            (insert_or_ignore (Listing.id listing) r (db self))
            (sent self) (naps self) (picks self) (S (inserts self)).

(** ** [check_for_new_listings] *)

(** The loop over the scraped listings, on [new_listings] and the tracker. *)
Fixpoint collect_new (env : Env) (listings new_listings : list Listing.t)
    (self : ApartmentTracker) : list Listing.t * ApartmentTracker :=
  match listings with
  | [] => (new_listings, self)
  | listing :: rest =>
      if is_new_listing self (Listing.id listing) then
        collect_new env rest (new_listings ++ [listing]) (save_listing env listing self)
      else
        collect_new env rest new_listings self
  end.

(** One cycle.  The first component is [new_listings], the list that is
    handed to [send_email_notifications] when it is not empty; it is empty
    when the cycle returns before the loop. *)
Definition check_for_new_listings (env : Env) (self : ApartmentTracker)
  : list Listing.t * ApartmentTracker :=
  let '(listings, self) := scrape_listings env self in
  match listings with
  | [] => ([], self)
  | _ => collect_new env listings [] self
  end.

(** ** [init_database] *)

(** The schema of the database file is the list of the columns of its table
    [apartments], [None] when the file has no such table. *)
Definition created_columns : list string :=
  [ "id"; "title"; "price"; "address"; "url"; "bedrooms"; "bathrooms"; "sqft";
    "first_seen" ].

(** SQLite compares column names without regard to the case of ASCII
    letters. *)
Definition same_column (a b : string) : bool :=
  String.eqb (PyStr.lower a) (PyStr.lower b).

Definition has_column (col : string) (cols : list string) : bool :=
  existsb (same_column col) cols.

(** [CREATE TABLE IF NOT EXISTS apartments (...)] *)
Definition create_table_if_not_exists (schema : option (list string)) : list string :=
  match schema with
  | Some cols => cols
  | None => created_columns
  end.

(** [ALTER TABLE apartments ADD COLUMN col TEXT]; [None] is the
    [sqlite3.OperationalError] of a duplicate column name. *)
Definition add_column (col : string) (cols : list string) : option (list string) :=
  if has_column col cols then None else Some (cols ++ [col])%list.

(** The schema that [init_database] leaves. *)
Definition init_database (schema : option (list string)) : list string :=
  let cols := create_table_if_not_exists schema in
  match add_column "image_url" cols with
  | Some cols' => cols'
  | None => cols
  end.

(** ** Sample pages and environments *)

(** A tag without matches below it. *)
Definition leaf (attributes : list (string * string)) (text : string) : Tag :=
  mkTag attributes text (fun _ => []).

Fixpoint matches (table : list (string * list Tag)) (selector : string) : list Tag :=
  match table with
  | [] => []
  | (k, tags) :: table' => if String.eqb k selector then tags else matches table' selector
  end.

(** A tag given by the matches of the selectors that match below it. *)
Definition node (table : list (string * list Tag)) : Tag :=
  mkTag [] EmptyString (matches table).

Definition listing_link (href : string) : string * list Tag :=
  ("a.ImageContainer-module__listingLink___sYIL9", [leaf [("href", href)] EmptyString]).

Definition card_image (alt : string) : string * list Tag :=
  ("img.CardImage-module__cardImage__cirIn", [leaf [("alt", alt)] EmptyString]).

Definition price_text (text : string) : string * list Tag :=
  (".PriceInfo-module__priceText___Ej9Ej", [leaf [] text]).

Definition page_of (cards : list Tag) : Tag := node [(card_selector, cards)].

(** The card of the scenario: a title, a price text and a relative link. *)
Definition east_5th_card : Tag :=
  node [ listing_link "/rental/abc123";
         card_image "120 East 5th Street 3A image 1 of 23";
         price_text "Base: $2,500" ].

(** A card with a link and a title only. *)
Definition bare_card : Tag :=
  node [ listing_link "/rental/xyz789"; card_image "The Eugene 12B" ].


(** A card whose link has no [href] and whose image text starts with the
    delimiter word. *)
Definition hollow_card : Tag :=
  node [ ("a.ImageContainer-module__listingLink___sYIL9", [leaf [] EmptyString]);
         card_image "image 1 of 23" ].

(** A card without any link. *)
Definition linkless_card : Tag :=
  node [ card_image "77 Road House 4" ; price_text "$1,900" ].

(** The listing of the scenario. *)
Definition east_5th_listing : Listing.t :=
  Listing.mk "9d4ef853b203897f1c0491ad4ff9c948" "120 East 5th Street 3A" "$2,500"
             "120 East 5th Street" "https://streeteasy.com/rental/abc123"
             unknown unknown unknown None.

(** The listing of the card with a link and a title only. *)
Definition bare_listing : Listing.t :=
  Listing.mk "ea13ab01c4d660f1b1d33845300089eb" "The Eugene 12B" unknown unknown
             "https://streeteasy.com/rental/xyz789" unknown unknown unknown None.

(** The same id with other fields. *)
Definition relisted (l : Listing.t) : Listing.t :=
  Listing.mk (Listing.id l) (Listing.title l) "$9,999" (Listing.address l)
             "https://streeteasy.com/rental/other" (Listing.bedrooms l)
             (Listing.bathrooms l) (Listing.sqft l) (Listing.image_url l).

(** A server that always answers with the same status and page. *)
Definition constant_env (status : Z) (page : Tag) : Env :=
  mkEnv (fun _ _ _ => Replied (mkResponse status page)) (fun k => k) (fun k => Z.of_nat k).

(** A server that answers the requests in turn with the given statuses (a
    negative status stands for a transport error) and with status 200 once
    they run out. *)
Definition scripted_env (statuses : list Z) (page : Tag) : Env :=
  mkEnv (fun k _ _ =>
           let status := nth k statuses 200%Z in
           if (status <? 0)%Z then TransportError
           else Replied (mkResponse status page))
        (fun k => k) (fun k => Z.of_nat k).

Definition fresh_tracker : ApartmentTracker :=
  new_tracker "https://streeteasy.com/for-rent/nyc" ∅.

(** ** Vocabulary of the statements *)

(** A reply that ends the retries: status 200. *)
Definition succeeds (r : reply) : bool :=
  match r with
  | Replied response => (status_code response =? 200)%Z
  | TransportError => false
  end.

(** A rate-limit reply: status 403. *)
Definition forbidden (r : reply) : bool :=
  match r with
  | Replied response => (status_code response =? 403)%Z
  | TransportError => false
  end.

(** The requests of one call of the fetcher, seen from outside: [uas] are
    the [User-Agent] headers of the requests in order, [base] requests were
    sent before the call, [first_ua] is the header when the call starts,
    [budget] is the number of attempts allowed and [res] the response
    returned, if any.
    - at most [budget] requests are sent, the first one with [first_ua];
    - every request but the last one failed;
    - after a rate-limit reply the next request carries a header of the
      pool, after any other failure it carries the same header again;
    - a response that is returned has status 200 and answers the last
      request; without one, [budget] requests were sent and all failed. *)
Definition fetch_trace (env : Env) (target : string) (base : nat) (first_ua : string)
    (budget : nat) (uas : list string) (res : option Response) : Prop :=
  (List.length uas ≤ budget)%nat
  ∧ (budget ≠ 0%nat → head uas = Some first_ua)
  ∧ (∀ i ua, uas !! i = Some ua → (S i < List.length uas)%nat →
       succeeds (network env (base + i) target ua) = false)
  ∧ (∀ i ua ua', uas !! i = Some ua → uas !! S i = Some ua' →
       if forbidden (network env (base + i) target ua)
       then ua' ∈ user_agents else ua' = ua)
  ∧ match res with
    | Some response =>
        ∃ ua, last uas = Some ua
              ∧ network env (base + List.length uas - 1) target ua = Replied response
              ∧ status_code response = 200%Z
    | None =>
        List.length uas = budget
        ∧ ∀ i ua, uas !! i = Some ua → succeeds (network env (base + i) target ua) = false
    end.

(** The title of a card after both cascades. *)
Definition card_title (card : Tag) : string :=
  title_fallback card (fst (title_and_image (find_image card))).

(** [s] consists of digits and commas. *)
Fixpoint all_digits_commas (s : string) : bool :=
  match s with
  | EmptyString => true
  | String c s' => PyStr.is_digit_or_comma c && all_digits_commas s'
  end.

Definition starts_with_digit_or_comma (s : string) : bool :=
  match s with
  | EmptyString => false
  | String c _ => PyStr.is_digit_or_comma c
  end.

(** [s] has no dollar sign that is followed by a digit or a comma. *)
Definition no_dollar_amount (s : string) : Prop :=
  ∀ pre c post,
    s = pre +:+ String "$"%char (String c post) → PyStr.is_digit_or_comma c = false.

(** The text of an item of the beds/baths container names a field. *)
Definition names_a_field (item : Tag) : bool :=
  let text := PyStr.lower (get_text_strip item) in
  PyStr.contains "bed" text || PyStr.contains "bath" text
  || PyStr.contains area_marker text.

(** A digit of lower-case hexadecimal. *)
Definition is_lower_hex (c : ascii) : bool :=
  let n := nat_of_ascii c in
  (((48 <=? n) && (n <=? 57)) || ((97 <=? n) && (n <=? 102)))%nat.





(** The item names the bedrooms, the bathrooms, the area: the three tests of
    the loop over the items, in the order in which they are tried. *)
Definition names_bedrooms (item : Tag) : bool :=
  PyStr.contains "bed" (PyStr.lower (get_text_strip item)).

Definition names_bathrooms (item : Tag) : bool :=
  negb (names_bedrooms item)
  && PyStr.contains "bath" (PyStr.lower (get_text_strip item)).

Definition names_area (item : Tag) : bool :=
  negb (names_bedrooms item)
  && negb (PyStr.contains "bath" (PyStr.lower (get_text_strip item)))
  && PyStr.contains area_marker (PyStr.lower (get_text_strip item)).

(** The text of the last item that passes a test, [d] when none does. *)
Definition last_text_or (d : string) (test : Tag -> bool) (items : list Tag) : string :=
  match last (List.filter test items) with
  | Some item => get_text_strip item
  | None => d
  end.

(** The same with the sentinel when no item passes. *)
Definition last_text (test : Tag -> bool) (items : list Tag) : string :=
  last_text_or unknown test items.

(** The items of the beds/baths container of a card. *)
Definition beds_baths_items (card : Tag) : list Tag :=
  match select_one card beds_baths_selector with
  | Some container => select container beds_baths_item_selector
  | None => []
  end.

(** The page that a cycle gets from the fetcher, if any. *)
Definition fetched_page (env : Env) (self : ApartmentTracker) : option Tag :=
  match fst (get_page_with_retry env (url self) default_max_retries self) with
  | Return response => Some (content response)
  | Raise _ => None
  end.

(** * Properties *)

Open Scope list_scope.

(** ** The store *)

Section Store.

Implicit Types (table : gmap string row) (key : string) (r : row).

Lemma insert_or_ignore_present table key r :
  is_Some (table !! key) → insert_or_ignore key r table = table.
Proof. intros [x Hx]. unfold insert_or_ignore. by rewrite Hx. Qed.

Lemma insert_or_ignore_absent table key r :
  table !! key = None → insert_or_ignore key r table = <[key := r]> table.
Proof. intros Hx. unfold insert_or_ignore. by rewrite Hx. Qed.

Lemma insert_or_ignore_stored table key r :
  is_Some (insert_or_ignore key r table !! key).
Proof.
  unfold insert_or_ignore. destruct (table !! key) as [x|] eqn:Hx.
  - rewrite Hx. eauto.
  - rewrite lookup_insert_eq. eauto.
Qed.

Lemma insert_or_ignore_keeps table key r key' x :
  table !! key' = Some x → insert_or_ignore key r table !! key' = Some x.
Proof.
  intros Hx. unfold insert_or_ignore. destruct (table !! key) eqn:Hk; [done|].
  rewrite lookup_insert_ne; [done|]. intros ->. congruence.
Qed.

Lemma insert_or_ignore_twice table key r r' :
  insert_or_ignore key r' (insert_or_ignore key r table) = insert_or_ignore key r table.
Proof. apply insert_or_ignore_present, insert_or_ignore_stored. Qed.

Lemma is_new_listing_false self key :
  is_new_listing self key = false ↔ is_Some (db self !! key).
Proof.
  unfold is_new_listing.
  destruct (db self !! key); split; intros H; first [done | eauto | by destruct H].
Qed.

Lemma is_new_listing_true self key :
  is_new_listing self key = true ↔ db self !! key = None.
Proof. unfold is_new_listing. by destruct (db self !! key). Qed.

End Store.

(** ** The loop of a cycle *)

Section Collect.

Variable env : Env.

(** Known listings are skipped and leave the tracker as it is. *)
Lemma collect_new_all_known listings new_listings self :
  (∀ l, l ∈ listings → is_Some (db self !! Listing.id l)) →
  collect_new env listings new_listings self = (new_listings, self).
Proof.
  induction listings as [|l rest IH]; intros Hknown; [done|].
  simpl. assert (is_new_listing self (Listing.id l) = false) as ->.
  { apply is_new_listing_false, Hknown. left. }
  apply IH. intros l' Hl'. apply Hknown. by right.
Qed.

(** What a run of the loop does: rows are only added, every listing of
    the page ends up stored, and the listings appended were unknown
    before and have pairwise distinct ids. *)
Lemma collect_new_spec listings :
  ∀ new_listings self result self',
    collect_new env listings new_listings self = (result, self') →
    (∀ key x, db self !! key = Some x → db self' !! key = Some x)
    ∧ (∀ l, l ∈ listings → is_Some (db self' !! Listing.id l))
    ∧ ∃ added,
        result = new_listings ++ added
        ∧ NoDup (Listing.id <$> added)
        ∧ (∀ l, l ∈ added → l ∈ listings ∧ db self !! Listing.id l = None).
Proof.
  induction listings as [|l rest IH]; intros acc self result self' Hrun; simpl in Hrun.
  - simplify_eq. split_and!; [done | by intros ? ?%elem_of_nil |].
    exists []. rewrite app_nil_r. split_and!; [done | constructor | by intros ? ?%elem_of_nil].
  - destruct (is_new_listing self (Listing.id l)) eqn:Hnew.
    + apply is_new_listing_true in Hnew.
      destruct (IH _ _ _ _ Hrun) as (Hkeep & Hall & added & -> & Hnodup & Hadded).
      assert (∀ key x, db self !! key = Some x → db self' !! key = Some x) as Hkeep'.
      { intros key x Hx. apply Hkeep. simpl. by apply insert_or_ignore_keeps. }
      assert (is_Some (db self' !! Listing.id l)) as Hl.
      { destruct (insert_or_ignore_stored (db self) (Listing.id l)
                    (mkRow l (clock env (inserts self)))) as [x Hx].
        exists x. by apply Hkeep. }
      split_and!; [done | |].
      * intros l' [->|Hl']%elem_of_cons; [done | by apply Hall].
      * exists (l :: added). rewrite <- app_assoc. split_and!; [done | |].
        -- rewrite fmap_cons. constructor; [|done].
           intros (l' & Hid & Hl')%list_elem_of_fmap.
           destruct (Hadded _ Hl') as [_ Hnone]. simpl in Hnone.
           rewrite <- Hid in Hnone.
           destruct (insert_or_ignore_stored (db self) (Listing.id l)
                       (mkRow l (clock env (inserts self)))) as [x Hx].
           congruence.
        -- intros l' [->|Hl']%elem_of_cons.
           ++ split; [left | done].
           ++ destruct (Hadded _ Hl') as [Hin Hnone]. split; [by right|].
              simpl in Hnone.
              destruct (db self !! Listing.id l') as [x|] eqn:Hx; [|done].
              apply (insert_or_ignore_keeps _ (Listing.id l)
                       (mkRow l (clock env (inserts self)))) in Hx. congruence.
    + apply is_new_listing_false in Hnew.
      destruct (IH _ _ _ _ Hrun) as (Hkeep & Hall & added & -> & Hnodup & Hadded).
      split_and!; [done | |].
      * intros l' [->|Hl']%elem_of_cons; [|by apply Hall].
        destruct Hnew as [x Hx]. exists x. by apply Hkeep.
      * exists added. split_and!; [done..|].
        intros l' Hl'. destruct (Hadded _ Hl'). split; [by right | done].
Qed.

End Collect.

(** ** The fetcher *)

Section Fetch.

Variables (env : Env) (target : string) (max_retries : Z).

Lemma sleep_fields self :
  sent (sleep self) = sent self ∧ user_agent (sleep self) = user_agent self.
Proof. done. Qed.

Lemma rotate_in_pool self :
  user_agent (rotate_user_agent env user_agents self) ∈ user_agents.
Proof.
  change (user_agent (rotate_user_agent env user_agents self))
    with (nth (dice env (picks self) mod List.length user_agents) user_agents EmptyString).
  apply list_elem_of_In, nth_In, Nat.mod_upper_bound. done.
Qed.

(** One turn of the loop. *)
Lemma retry_loop_step attempt rest self :
  retry_loop env target max_retries (attempt :: rest) self =
  let self1 := if (0 <? attempt)%Z then sleep self else self in
  let r := network env (List.length (sent self)) target (user_agent self) in
  let self2 := snd (session_get env target self1) in
  if succeeds r then
    (match r with Replied response => Some response | TransportError => None end, self2)
  else if forbidden r && (attempt <? max_retries - 1)%Z then
    retry_loop env target max_retries rest (rotate_user_agent env user_agents self2)
  else
    retry_loop env target max_retries rest self2.
Proof.
  simpl. destruct (0 <? attempt)%Z; simpl;
    destruct (network env (List.length (sent self)) target (user_agent self))
      as [response|]; simpl; try done;
    destruct (status_code response =? 200)%Z; try done;
    destruct (status_code response =? 403)%Z; try done;
    destruct (attempt <? max_retries - 1)%Z; done.
Qed.

(** The state after the request of a turn. *)
Lemma session_get_fields attempt self :
  let self1 := if (0 <? attempt)%Z then sleep self else self in
  let self2 := snd (session_get env target self1) in
  sent self2 = sent self ++ [user_agent self]
  ∧ user_agent self2 = user_agent self
  ∧ db self2 = db self ∧ url self2 = url self ∧ inserts self2 = inserts self.
Proof. by destruct (0 <? attempt)%Z. Qed.

Lemma rotate_fields self :
  let self' := rotate_user_agent env user_agents self in
  sent self' = sent self ∧ db self' = db self ∧ url self' = url self
  ∧ inserts self' = inserts self.
Proof. done. Qed.

(** The store and the url are not touched by the fetcher. *)
Lemma retry_loop_frame attempts :
  ∀ self res self',
    retry_loop env target max_retries attempts self = (res, self') →
    db self' = db self ∧ url self' = url self ∧ inserts self' = inserts self.
Proof.
  induction attempts as [|attempt rest IH]; intros self res self' Hrun.
  - simpl in Hrun. by simplify_eq.
  - rewrite retry_loop_step in Hrun. cbv zeta in Hrun.
    destruct (session_get_fields attempt self) as (_ & _ & Hdb & Hurl & Hins).
    destruct (succeeds _); [by simplify_eq|].
    destruct (forbidden _ && _); apply IH in Hrun as (-> & -> & ->); done.
Qed.

(** A failed request in front of a trace. *)
Lemma fetch_trace_cons base ua next_ua budget uas res :
  succeeds (network env base target ua) = false →
  fetch_trace env target (S base) next_ua budget uas res →
  (uas ≠ [] →
   if forbidden (network env base target ua) then next_ua ∈ user_agents else next_ua = ua) →
  fetch_trace env target base ua (S budget) (ua :: uas) res.
Proof.
  intros Hfail (Hlen & Hhead & Hfails & Hchain & Hres) Hnext.
  unfold fetch_trace. split_and!.
  - simpl. lia.
  - done.
  - intros [|i] ua1 Hi Hlt; simpl in Hi.
    + simplify_eq. by rewrite Nat.add_0_r.
    + replace (base + S i)%nat with (S base + i)%nat by lia.
      apply Hfails; [done | simpl in Hlt; lia].
  - intros [|i] ua1 ua2 Hi Hsi; simpl in Hi, Hsi.
    + simplify_eq. rewrite Nat.add_0_r.
      assert (uas ≠ []) as Hne by (by destruct uas).
      assert (budget ≠ 0%nat) as Hb by (destruct uas; [done | simpl in Hlen; lia]).
      specialize (Hhead Hb). rewrite head_lookup in Hhead.
      rewrite Hhead in Hsi. simplify_eq. by apply Hnext.
    + replace (base + S i)%nat with (S base + i)%nat by lia. by apply Hchain.
  - destruct res as [response|].
    + destruct Hres as (ua1 & Hlast & Hreply & Hstatus).
      exists ua1. destruct uas as [|ua2 uas']; [done|].
      split_and!; [done | | done].
      rewrite <- Hreply. f_equal. simpl. lia.
    + destruct Hres as [<- Hall]. split; [done|].
      intros [|i] ua1 Hi; simpl in Hi.
      * simplify_eq. by rewrite Nat.add_0_r.
      * replace (base + S i)%nat with (S base + i)%nat by lia. by apply Hall.
Qed.

(** The loop over the attempts [j], ..., [j + budget - 1], the last of
    which is attempt [max_retries - 1]. *)
Lemma retry_loop_trace budget :
  ∀ j self res self',
    (budget ≠ 0%nat → Z.of_nat (j + budget) = max_retries) →
    retry_loop env target max_retries (Z.of_nat <$> seq j budget) self = (res, self') →
    ∃ uas, sent self' = sent self ++ uas
           ∧ fetch_trace env target (List.length (sent self)) (user_agent self)
                         budget uas res.
Proof.
  induction budget as [|budget IH]; intros j self res self' Hmax Hrun.
  - simpl in Hrun. simplify_eq. exists []. rewrite app_nil_r. split; [done|].
    unfold fetch_trace. split_and!; try done.
  - specialize (Hmax ltac:(done)).
    rewrite <- cons_seq, fmap_cons, retry_loop_step in Hrun. cbv zeta in Hrun.
    destruct (session_get_fields (Z.of_nat j) self) as (Hsent & Hua & _).
    destruct (succeeds _) eqn:Hsucc.
    + destruct (network env _ target _) as [response|] eqn:Hreply; [|done].
      simplify_eq. exists [user_agent self]. split; [done|].
      unfold fetch_trace. split_and!.
      * simpl. lia.
      * done.
      * intros i ua _ Hlt. simpl in Hlt. lia.
      * intros i ua ua' _ Hsi. by destruct i.
      * exists (user_agent self). split_and!; [done | | by apply Z.eqb_eq].
        rewrite <- Hreply. f_equal. simpl. lia.
    + destruct (forbidden _ && _) eqn:Hrot.
      * apply andb_true_iff in Hrot as [Hforb _].
        apply IH in Hrun as (uas & Hsent' & Htrace); [|lia].
        destruct (rotate_fields (session_get env target
                    (if (0 <? Z.of_nat j)%Z then sleep self else self)).2) as (Hs & _).
        rewrite Hs, Hsent in Hsent', Htrace. rewrite length_app in Htrace.
        simpl in Htrace. rewrite Nat.add_1_r in Htrace.
        exists (user_agent self :: uas). split; [by rewrite Hsent', <- app_assoc|].
        eapply fetch_trace_cons; [done..|].
        intros _. rewrite Hforb. apply rotate_in_pool.
      * apply IH in Hrun as (uas & Hsent' & Htrace); [|lia].
        rewrite Hsent in Hsent', Htrace. rewrite Hua, length_app in Htrace.
        simpl in Htrace. rewrite Nat.add_1_r in Htrace.
        exists (user_agent self :: uas). split; [by rewrite Hsent', <- app_assoc|].
        eapply fetch_trace_cons; [done..|].
        intros Hne. destruct (forbidden _) eqn:Hforb; [|done].
        simpl in Hrot. apply Z.ltb_ge in Hrot.
        destruct Htrace as (Hlen & _). destruct uas; [done|]. simpl in Hlen. lia.
Qed.

Lemma get_page_with_retry_frame self :
  let self' := snd (get_page_with_retry env target max_retries self) in
  db self' = db self ∧ url self' = url self ∧ inserts self' = inserts self.
Proof.
  unfold get_page_with_retry.
  destruct (retry_loop env target max_retries (range max_retries) self)
    as [res self'] eqn:Hrun.
  apply retry_loop_frame in Hrun. by destruct res.
Qed.

End Fetch.

(** C7. The fetcher sends at most [max_retries] requests and stops at the
    first reply with status 200, which it returns; after a reply with
    status 403 the next request carries a [User-Agent] of the pool, after
    any other failed reply or a transport error it carries the same
    [User-Agent] again; when all [max_retries] requests fail it raises a
    [RequestException] whose message carries [max_retries]. *)
Theorem get_page_with_retry_bounded_rotating
    (env : Env) (target : string) (max_retries : Z) (self : ApartmentTracker) :
  (0 ≤ max_retries)%Z →
  let '(outcome, self') := get_page_with_retry env target max_retries self in
  ∃ uas res,
    sent self' = sent self ++ uas
    ∧ (Z.of_nat (List.length uas) ≤ max_retries)%Z
    ∧ fetch_trace env target (List.length (sent self)) (user_agent self)
                  (Z.to_nat max_retries) uas res
    ∧ outcome =
        match res with
        | Some response => Return response
        | None =>
            Raise (RequestException
                     ("Failed to fetch page after " +:+ pretty max_retries +:+ " attempts"))
        end.
Proof.
  intros Hpos. unfold get_page_with_retry.
  destruct (retry_loop env target max_retries (range max_retries) self)
    as [res self'] eqn:Hrun.
  apply (retry_loop_trace env target max_retries (Z.to_nat max_retries) 0%nat) in Hrun
    as (uas & Hsent & Htrace); [|lia].
  assert (Z.of_nat (List.length uas) ≤ max_retries)%Z as Hlen.
  { destruct Htrace as [Hlen _]. lia. }
  destruct res as [response|]; exists uas; [exists (Some response) | exists None]; done.
Qed.

Lemma get_page_with_retry_bounded_rotating_witness :
  let '(outcome, self') :=
    get_page_with_retry (scripted_env [403; 500; 200]%Z (page_of [])) "https://streeteasy.com"
                        default_max_retries fresh_tracker in
  ∃ uas res,
    sent self' = sent fresh_tracker ++ uas
    ∧ (Z.of_nat (List.length uas) ≤ default_max_retries)%Z
    ∧ fetch_trace (scripted_env [403; 500; 200]%Z (page_of [])) "https://streeteasy.com"
                  (List.length (sent fresh_tracker)) (user_agent fresh_tracker)
                  (Z.to_nat default_max_retries) uas res
    ∧ outcome =
        match res with
        | Some response => Return response
        | None =>
            Raise (RequestException
                     ("Failed to fetch page after " +:+ pretty default_max_retries
                      +:+ " attempts"))
        end.
Proof.
  apply (get_page_with_retry_bounded_rotating
           (scripted_env [403; 500; 200]%Z (page_of [])) "https://streeteasy.com"
           default_max_retries fresh_tracker).
  unfold default_max_retries. lia.
Defined.

(** Two rate-limit replies and then a success: three requests, two waits,
    and the third request does not carry the header of the first. *)
Example rate_limited_twice_then_success :
  let self' :=
    snd (get_page_with_retry (scripted_env [403; 403; 200]%Z (page_of []))
                             "https://streeteasy.com" default_max_retries fresh_tracker) in
  List.length (sent self') = 3%nat ∧ naps self' = 2%nat
  ∧ sent self' !! 0%nat ≠ sent self' !! 2%nat.
Proof. vm_compute. split_and!; [done | done | discriminate]. Qed.

(** ** Strings *)

Section Strings.

Import PyStr.

#[local] Arguments String.append !_ _ / : simpl nomatch.

Lemma take_digits_commas_spec s :
  ∃ post, s = take_digits_commas s +:+ post
          ∧ all_digits_commas (take_digits_commas s) = true
          ∧ starts_with_digit_or_comma post = false.
Proof.
  induction s as [|c s IH]; [by exists EmptyString|].
  simpl. destruct (is_digit_or_comma c) eqn:Hc.
  - destruct IH as (post & Heq & Hall & Hpost). exists post.
    simpl. rewrite Hc, Hall. split_and!; [by f_equal | done | done].
  - exists (String c s). by simpl.
Qed.

Lemma no_dollar_amount_empty : no_dollar_amount EmptyString.
Proof. intros [|a pre] c post Heq; discriminate. Qed.

Lemma no_dollar_amount_cons a s :
  no_dollar_amount s →
  (a = "$"%char → starts_with_digit_or_comma s = false) →
  no_dollar_amount (String a s).
Proof.
  intros Hs Ha [|b pre] c post Heq; simpl in Heq; simplify_eq.
  - by apply Ha.
  - by eapply Hs.
Qed.

Lemma no_dollar_amount_tail a s : no_dollar_amount (String a s) → no_dollar_amount s.
Proof. intros Hs pre c post ->. by apply (Hs (String a pre) c post). Qed.

Lemma take_nothing_head s :
  take_digits_commas s = EmptyString → starts_with_digit_or_comma s = false.
Proof. destruct s as [|c s]; simpl; [done|]. by destruct (is_digit_or_comma c). Qed.

(** The match found is a dollar sign with the longest run of digits and
    commas after it, and no match starts before it. *)
Lemma search_dollar_amount_sound raw :
  ∀ tok, search_dollar_amount raw = Some tok →
    ∃ pre ds post,
      raw = pre +:+ String "$"%char ds +:+ post
      ∧ tok = String "$"%char ds
      ∧ ds ≠ EmptyString
      ∧ all_digits_commas ds = true
      ∧ starts_with_digit_or_comma post = false
      ∧ no_dollar_amount pre.
Proof.
  induction raw as [|c raw IH]; intros tok Hsearch; [done|].
  simpl in Hsearch. destruct (Ascii.eqb c "$") eqn:Hc.
  - apply Ascii.eqb_eq in Hc. subst c.
    destruct (take_digits_commas raw) as [|d ds] eqn:Htake.
    + destruct (IH _ Hsearch) as (pre & ds & post & -> & -> & Hne & Hall & Hpost & Hpre).
      exists (String "$"%char pre), ds, post. split_and!; try done.
      apply no_dollar_amount_cons; [done|]. intros _.
      apply take_nothing_head in Htake. by destruct pre.
    + simplify_eq. destruct (take_digits_commas_spec raw) as (post & Heq & Hall & Hpost).
      rewrite Htake in Heq, Hall. exists EmptyString, (String d ds), post.
      split_and!; try done; [by simpl; f_equal | apply no_dollar_amount_empty].
  - destruct (IH _ Hsearch) as (pre & ds & post & -> & -> & Hne & Hall & Hpost & Hpre).
    exists (String c pre), ds, post. split_and!; try done.
    apply no_dollar_amount_cons; [done|]. intros ->. by rewrite Ascii.eqb_refl in Hc.
Qed.


(** [absolute] never gives an empty link. *)
Lemma absolute_starts_with_http link : startswith (absolute link) "http" = true.
Proof. unfold absolute. by destruct (startswith link "http") eqn:Hlink. Qed.

Lemma absolute_truthy link : truthy (absolute link) = true.
Proof.
  pose proof (absolute_starts_with_http link) as H.
  by destruct (absolute link).
Qed.

End Strings.

(** ** The extractor *)

Section Extract.

Variable self : ApartmentTracker.

(** The fields of a listing that is emitted. *)
Lemma scrape_card_Some card r :
  scrape_card self card = Some r →
  ∃ link_elem,
    find_link card = Some link_elem
    ∧ card_title card ≠ unknown
    ∧ Listing.title r = card_title card
    ∧ Listing.url r = absolute (get_default link_elem "href" EmptyString)
    ∧ Listing.price r = extract_price card
    ∧ Listing.address r = extract_address (card_title card)
    ∧ (Listing.bedrooms r, Listing.bathrooms r, Listing.sqft r)
      = extract_beds_baths_sqft card
    ∧ Listing.id r
      = generate_listing_id self (Listing.title r) (Listing.address r) (Listing.price r).
Proof.
  unfold scrape_card, card_title. intros Hcard.
  destruct (find_link card) as [link_elem|]; [|done].
  destruct (title_and_image (find_image card)) as [title image_url].
  destruct (extract_beds_baths_sqft card) as [[bedrooms bathrooms] sqft].
  rewrite absolute_truthy, orb_false_r in Hcard. simpl fst.
  destruct (String.eqb _ unknown) eqn:Htitle; [done|].
  apply String.eqb_neq in Htitle. simplify_eq. exists link_elem. by simpl.
Qed.

(** A card with a link and a title is emitted. *)
Lemma scrape_card_emits card link_elem :
  find_link card = Some link_elem →
  card_title card ≠ unknown →
  is_Some (scrape_card self card).
Proof.
  unfold scrape_card, card_title. intros -> Htitle.
  destruct (title_and_image (find_image card)) as [title image_url].
  destruct (extract_beds_baths_sqft card) as [[bedrooms bathrooms] sqft].
  rewrite absolute_truthy, orb_false_r. simpl fst in Htitle.
  apply String.eqb_neq in Htitle. rewrite Htitle. eauto.
Qed.


Lemma scrape_page_cards soup :
  scrape_page self soup = omap (scrape_card self) (select soup card_selector).
Proof. unfold scrape_page. by destruct (select soup card_selector). Qed.

(** Items that name no field leave the three fields as they are. *)
Lemma classify_unnamed items :
  ∀ acc, (∀ item, item ∈ items → names_a_field item = false) →
         fold_left classify_item items acc = acc.
Proof.
  induction items as [|item items IH]; intros acc Hnone; [done|].
  simpl. assert (classify_item acc item = acc) as ->.
  { pose proof (Hnone item ltac:(left)) as Hitem. unfold names_a_field in Hitem.
    apply orb_false_iff in Hitem as [Hitem Hsqft].
    apply orb_false_iff in Hitem as [Hbed Hbath].
    unfold classify_item. destruct acc as [[bedrooms bathrooms] sqft].
    by rewrite Hbed, Hbath, Hsqft. }
  apply IH. intros item' Hitem'. apply Hnone. by right.
Qed.

End Extract.

Lemma scrape_card_self self self' card :
  scrape_card self card = scrape_card self' card.
Proof. reflexivity. Qed.

Lemma scrape_page_self self self' soup :
  scrape_page self soup = scrape_page self' soup.
Proof. reflexivity. Qed.

(** What [scrape_listings] returns, in terms of the page fetched. *)
Lemma scrape_listings_fetched env self :
  fst (scrape_listings env self) =
    match fetched_page env self with
    | Some page => scrape_page self page
    | None => []
    end
  ∧ db (snd (scrape_listings env self)) = db self.
Proof.
  unfold scrape_listings, scrape_listings_try, fetched_page.
  destruct (get_page_with_retry_frame env (url self) default_max_retries self) as (Hdb & _).
  destruct (get_page_with_retry env (url self) default_max_retries self) as [[response|e] s];
    simpl in *; done.
Qed.



(** A link without [href] resolves to the origin, and an image text that
    starts with the delimiter word gives an empty title: such a card is
    emitted. *)
Example hollow_card_emitted :
  (λ r, (Listing.title r, Listing.url r)) <$> scrape_card fresh_tracker hollow_card
  = Some (EmptyString, "https://streeteasy.com").
Proof. vm_compute. reflexivity. Qed.

(** The page of the witness: the card without a link is skipped and the
    other card is emitted. *)
Example linkless_card_skipped :
  Listing.url <$>
    fst (scrape_listings (constant_env 200 (page_of [linkless_card; east_5th_card]))
                         fresh_tracker)
  = ["https://streeteasy.com/rental/abc123"].
Proof. vm_compute. reflexivity. Qed.

(** C6. A card with a link and a title, without a price element and
    without a beds/baths item that names a field, is emitted, and its
    price, bedrooms, bathrooms and sqft are the sentinel. *)
Theorem bare_card_emitted_with_sentinels
    (self : ApartmentTracker) (card link_elem : Tag) :
  find_link card = Some link_elem →
  card_title card ≠ unknown →
  first_match card price_selectors = None →
  (∀ container item,
     select_one card beds_baths_selector = Some container →
     item ∈ select container beds_baths_item_selector →
     names_a_field item = false) →
  ∃ r, scrape_card self card = Some r
       ∧ Listing.title r = card_title card
       ∧ Listing.url r = absolute (get_default link_elem "href" EmptyString)
       ∧ Listing.price r = unknown
       ∧ Listing.bedrooms r = unknown
       ∧ Listing.bathrooms r = unknown
       ∧ Listing.sqft r = unknown.
Proof.
  intros Hlink Htitle Hprice Hitems.
  destruct (scrape_card_emits self card link_elem Hlink Htitle) as [r Hr].
  exists r. split; [done|].
  apply scrape_card_Some in Hr
    as (link_elem' & Hlink' & _ & Ht & Hurl & Hp & _ & Hbeds & _).
  assert (link_elem' = link_elem) as -> by congruence.
  assert (extract_beds_baths_sqft card = (unknown, unknown, unknown)) as Hnone.
  { unfold extract_beds_baths_sqft.
    destruct (select_one card beds_baths_selector) as [container|] eqn:Hcontainer; [|done].
    apply classify_unnamed. intros item Hitem. by eapply Hitems. }
  rewrite Hnone in Hbeds. unfold extract_price in Hp. rewrite Hprice in Hp.
  by simplify_eq.
Qed.

Lemma bare_card_emitted_with_sentinels_witness :
  ∃ r, scrape_card fresh_tracker bare_card = Some r
       ∧ Listing.title r = card_title bare_card
       ∧ Listing.url r = absolute "/rental/xyz789"
       ∧ Listing.price r = unknown
       ∧ Listing.bedrooms r = unknown
       ∧ Listing.bathrooms r = unknown
       ∧ Listing.sqft r = unknown.
Proof.
  apply (bare_card_emitted_with_sentinels fresh_tracker bare_card
           (leaf [("href", "/rental/xyz789")] EmptyString)).
  - reflexivity.
  - vm_compute. discriminate.
  - reflexivity.
  - intros container item Hcontainer. vm_compute in Hcontainer. discriminate.
Defined.




(** The address of the scenario. *)
Example east_5th_address :
  extract_address "120 East 5th Street 3A" = "120 East 5th Street"
  ∧ extract_address "120 EAST 5TH STREET 3A" = "120 EAST 5TH STREET"
  ∧ extract_address "The Eugene 12B" = unknown.
Proof. vm_compute. split_and!; reflexivity. Qed.



(** The price of the scenario, and prices without a match. *)
Example price_examples :
  clean_price "Base: $2,500" = "$2,500"
  ∧ clean_price "$3,100 net effective, $3,400 base rent" = "$3,100"
  ∧ clean_price "$ 2,500 base rent" = "$ 2,500"
  ∧ clean_price "2500 base rent" = unknown
  ∧ clean_price "Call for rent" = unknown.
Proof. vm_compute. split_and!; reflexivity. Qed.

(** ** The identity hash *)


(** The digest of the scenario. *)
Example east_5th_digest :
  generate_listing_id fresh_tracker "120 East 5th Street 3A" "120 East 5th Street" "$2,500"
  = "9d4ef853b203897f1c0491ad4ff9c948".
Proof. vm_compute. reflexivity. Qed.

(** The digest of the empty message and of a message of two blocks. *)
Example md5_test_vectors :
  MD5.hexdigest (encode EmptyString) = "d41d8cd98f00b204e9800998ecf8427e"
  ∧ MD5.hexdigest (encode "abc") = "900150983cd24fb0d6963f7d28e17f72"
  ∧ MD5.hexdigest
      (encode "12345678901234567890123456789012345678901234567890123456789012345678901234567890")
    = "57edf4a22be3c955ac49da2e2107b67a".
Proof. vm_compute. split_and!; reflexivity. Qed.

(** ** The cycle *)

(** C8. When the fetcher raises, the cycle ends with an empty list of new
    listings and the table as it was. *)
Theorem failed_fetch_leaves_store (env : Env) (self : ApartmentTracker) (e : exn) :
  fst (get_page_with_retry env (url self) default_max_retries self) = Raise e →
  fst (check_for_new_listings env self) = []
  ∧ db (snd (check_for_new_listings env self)) = db self.
Proof.
  intros Hraise. unfold check_for_new_listings.
  destruct (scrape_listings_fetched env self) as [Hlist Hdb].
  unfold fetched_page in Hlist. rewrite Hraise in Hlist.
  destruct (scrape_listings env self) as [listings s]. simpl in *. by subst.
Qed.

Lemma failed_fetch_leaves_store_witness :
  fst (check_for_new_listings (constant_env 403 (page_of [east_5th_card])) fresh_tracker) = []
  ∧ db (snd (check_for_new_listings (constant_env 403 (page_of [east_5th_card]))
                                    fresh_tracker)) = db fresh_tracker.
Proof.
  apply (failed_fetch_leaves_store (constant_env 403 (page_of [east_5th_card])) fresh_tracker
           (RequestException "Failed to fetch page after 3 attempts")).
  vm_compute. reflexivity.
Defined.

(** C2. A second cycle on the page content of the first, with the table as
    the first cycle left it, finds no new listing and leaves the table as
    it is. *)
Theorem second_cycle_finds_nothing
    (env1 env2 : Env) (self1 self2 : ApartmentTracker) (page : Tag) :
  fetched_page env1 self1 = Some page →
  fetched_page env2 self2 = Some page →
  db self2 = db (snd (check_for_new_listings env1 self1)) →
  fst (check_for_new_listings env2 self2) = []
  ∧ db (snd (check_for_new_listings env2 self2)) = db self2.
Proof.
  intros Hpage1 Hpage2 Hdb.
  destruct (scrape_listings_fetched env1 self1) as [Hlist1 Hdb1].
  destruct (scrape_listings_fetched env2 self2) as [Hlist2 Hdb2].
  rewrite Hpage1 in Hlist1. rewrite Hpage2 in Hlist2.
  rewrite (scrape_page_self self2 self1) in Hlist2.
  unfold check_for_new_listings in *.
  destruct (scrape_listings env1 self1) as [listings s1].
  destruct (scrape_listings env2 self2) as [listings2 s2].
  simpl in *. subst listings listings2.
  destruct (scrape_page self1 page) as [|l rest] eqn:Hscrape; [done|].
  destruct (collect_new env1 (l :: rest) [] s1) as [new1 after1] eqn:Hrun1.
  apply collect_new_spec in Hrun1 as (_ & Hstored & _). simpl in Hdb.
  rewrite collect_new_all_known; [done|].
  intros l' Hl'. rewrite Hdb2, Hdb. by apply Hstored.
Qed.

Lemma second_cycle_finds_nothing_witness :
  let env := constant_env 200 (page_of [east_5th_card; bare_card]) in
  let self2 := snd (check_for_new_listings env fresh_tracker) in
  fst (check_for_new_listings env self2) = []
  ∧ db (snd (check_for_new_listings env self2)) = db self2.
Proof.
  apply (second_cycle_finds_nothing
           (constant_env 200 (page_of [east_5th_card; bare_card]))
           (constant_env 200 (page_of [east_5th_card; bare_card]))
           fresh_tracker
           (snd (check_for_new_listings
                   (constant_env 200 (page_of [east_5th_card; bare_card])) fresh_tracker))
           (page_of [east_5th_card; bare_card])); reflexivity.
Defined.

(** The first cycle of the witness above does find the two listings. *)
Example first_cycle_finds_two :
  Listing.title <$>
    fst (check_for_new_listings (constant_env 200 (page_of [east_5th_card; bare_card]))
                                fresh_tracker)
  = ["120 East 5th Street 3A"; "The Eugene 12B"].
Proof. vm_compute. reflexivity. Qed.

(** The id of a scraped listing is the hash of its title, address and
    price. *)
Lemma scrape_listings_ids env self l :
  l ∈ fst (scrape_listings env self) →
  Listing.id l
  = generate_listing_id self (Listing.title l) (Listing.address l) (Listing.price l).
Proof.
  intros Hl. destruct (scrape_listings_fetched env self) as [Hlist _].
  rewrite Hlist in Hl. destruct (fetched_page env self) as [page|];
    [|by apply elem_of_nil in Hl].
  rewrite scrape_page_cards in Hl. apply list_elem_of_omap in Hl as (card & _ & Hcard).
  by apply scrape_card_Some in Hcard as (_ & _ & _ & _ & _ & _ & _ & _ & Hid).
Qed.

(** C10. The ids of the new listings of one cycle are pairwise distinct,
    and so are their triples of title, address and price: two entries of
    the list with the same triple are the same entry. *)
Theorem new_listings_distinct_ids (env : Env) (self : ApartmentTracker) :
  let new_listings := fst (check_for_new_listings env self) in
  NoDup (Listing.id <$> new_listings)
  ∧ (∀ i j a b,
       new_listings !! i = Some a → new_listings !! j = Some b →
       Listing.title a = Listing.title b →
       Listing.address a = Listing.address b →
       Listing.price a = Listing.price b →
       i = j).
Proof.
  unfold check_for_new_listings.
  destruct (scrape_listings env self) as [listings s] eqn:Hscrape.
  assert (∀ l, l ∈ listings →
               Listing.id l
               = generate_listing_id self (Listing.title l) (Listing.address l)
                                     (Listing.price l)) as Hids.
  { intros l Hl. apply (scrape_listings_ids env). by rewrite Hscrape. }
  destruct listings as [|l rest].
  { simpl. split; [constructor | by intros i j a b ?]. }
  destruct (collect_new env (l :: rest) [] s) as [new_listings s'] eqn:Hrun.
  apply collect_new_spec in Hrun as (_ & _ & added & -> & Hnodup & Hadded).
  simpl. split; [done|].
  intros i j a b Ha Hb Htitle Haddress Hprice.
  assert (Listing.id a = Listing.id b) as Hid.
  { rewrite (Hids a), (Hids b).
    - by rewrite Htitle, Haddress, Hprice.
    - by apply Hadded, list_elem_of_lookup_2 with j.
    - by apply Hadded, list_elem_of_lookup_2 with i. }
  apply (NoDup_lookup (Listing.id <$> added) i j (Listing.id a)); [done | |].
  - by rewrite list_lookup_fmap, Ha.
  - by rewrite list_lookup_fmap, Hb, Hid.
Qed.

Lemma new_listings_distinct_ids_witness :
  let env := constant_env 200 (page_of [east_5th_card; bare_card; east_5th_card]) in
  let new_listings := fst (check_for_new_listings env fresh_tracker) in
  NoDup (Listing.id <$> new_listings)
  ∧ (∀ i j a b,
       new_listings !! i = Some a → new_listings !! j = Some b →
       Listing.title a = Listing.title b →
       Listing.address a = Listing.address b →
       Listing.price a = Listing.price b →
       i = j).
Proof.
  apply (new_listings_distinct_ids
           (constant_env 200 (page_of [east_5th_card; bare_card; east_5th_card]))
           fresh_tracker).
Defined.

(** A page that shows the same listing twice reports it once. *)
Example repeated_card_reported_once :
  Listing.title <$>
    fst (check_for_new_listings
           (constant_env 200 (page_of [east_5th_card; bare_card; east_5th_card]))
           fresh_tracker)
  = ["120 East 5th Street 3A"; "The Eugene 12B"].
Proof. vm_compute. reflexivity. Qed.

(** C9. Saving a second listing under an id that was just saved leaves the
    table as the first save left it, whatever the other fields of the
    second listing are; and saving under an id that is already in the
    table leaves the table, and so the row under that id, as it was. *)
Theorem save_listing_idempotent
    (env env' : Env) (self : ApartmentTracker) (listing listing' : Listing.t) :
  Listing.id listing' = Listing.id listing →
  let once := save_listing env listing self in
  let twice := save_listing env' listing' once in
  db twice = db once
  ∧ db twice !! Listing.id listing = db once !! Listing.id listing
  ∧ is_new_listing once (Listing.id listing) = false
  ∧ (∀ stored, db self !! Listing.id listing = Some stored →
               db once = db self ∧ db twice !! Listing.id listing = Some stored).
Proof.
  intros Hid once twice.
  assert (db twice = db once) as Htwice.
  { subst once twice. simpl. rewrite Hid. apply insert_or_ignore_twice. }
  split_and!; [done | by rewrite Htwice | |].
  - apply is_new_listing_false. apply insert_or_ignore_stored.
  - intros stored Hstored.
    assert (db once = db self) as Honce.
    { subst once. simpl. apply insert_or_ignore_present. eauto. }
    split; [done|]. by rewrite Htwice, Honce.
Qed.

Lemma save_listing_idempotent_witness :
  let env := constant_env 200 (page_of []) in
  let self := save_listing env east_5th_listing fresh_tracker in
  let once := save_listing env east_5th_listing self in
  let twice := save_listing env (relisted east_5th_listing) once in
  db twice = db once
  ∧ db twice !! Listing.id east_5th_listing = db once !! Listing.id east_5th_listing
  ∧ is_new_listing once (Listing.id east_5th_listing) = false
  ∧ (∀ stored, db self !! Listing.id east_5th_listing = Some stored →
               db once = db self
               ∧ db twice !! Listing.id east_5th_listing = Some stored).
Proof.
  apply (save_listing_idempotent (constant_env 200 (page_of [])) (constant_env 200 (page_of []))
           (save_listing (constant_env 200 (page_of [])) east_5th_listing fresh_tracker)
           east_5th_listing (relisted east_5th_listing)).
  reflexivity.
Defined.

(** The row of the scenario keeps its price and its timestamp when the id is
    saved again. *)
Example saved_row_is_kept :
  let env := constant_env 200 (page_of []) in
  let once := save_listing env east_5th_listing fresh_tracker in
  let twice := save_listing env (relisted east_5th_listing) once in
  db twice !! Listing.id east_5th_listing = Some (mkRow east_5th_listing 0).
Proof. vm_compute. reflexivity. Qed.

(** * Further properties *)

(** ** The fetcher: waits, rotations, bounds *)

Section FetchCounters.

Variables (env : Env) (target : string) (max_retries : Z).

(** The state after the request of a turn: the waits and the picks. *)
Lemma session_get_counters (j : nat) self :
  let self1 := if (0 <? Z.of_nat j)%Z then sleep self else self in
  let self2 := snd (session_get env target self1) in
  sent self2 = sent self ++ [user_agent self]
  ∧ user_agent self2 = user_agent self
  ∧ naps self2 = (naps self + (if decide (j = 0%nat) then 0 else 1))%nat
  ∧ picks self2 = picks self.
Proof.
  destruct (decide (j = 0%nat)) as [->|Hj].
  - simpl. split_and!; [done | done | lia | done].
  - assert ((0 <? Z.of_nat j)%Z = true) as -> by (apply Z.ltb_lt; lia).
    simpl. split_and!; [done | done | lia | done].
Qed.

(** The waits and the picks of the loop over the attempts [j], ...,
    [j + budget - 1]: one wait before every attempt but attempt 0, at most
    one pick between two requests, and the header left in the session is
    the header of the last request. *)
Lemma retry_loop_counters budget :
  ∀ j self res self',
    (budget ≠ 0%nat → Z.of_nat (j + budget) = max_retries) →
    retry_loop env target max_retries (Z.of_nat <$> seq j budget) self = (res, self') →
    ∃ uas,
      sent self' = sent self ++ uas
      ∧ (budget ≠ 0%nat → uas ≠ [])
      ∧ (uas = [] → self' = self)
      ∧ naps self' = (naps self + (if decide (j = 0%nat) then pred (List.length uas)
                                   else List.length uas))%nat
      ∧ (uas ≠ [] → last uas = Some (user_agent self'))
      ∧ (picks self ≤ picks self' ≤ picks self + pred (List.length uas))%nat.
Proof.
  induction budget as [|budget IH]; intros j self res self' Hmax Hrun.
  - simpl in Hrun. simplify_eq. exists []. rewrite app_nil_r.
    split_and!; try done; [by destruct (decide _) | simpl; lia].
  - specialize (Hmax ltac:(done)).
    rewrite <- cons_seq, fmap_cons, retry_loop_step in Hrun. cbv zeta in Hrun.
    destruct (session_get_counters j self) as (Hsent & Hua & Hnaps2 & Hpicks2).
    remember (session_get env target
                (if (0 <? Z.of_nat j)%Z then sleep self else self)).2 as self2 eqn:Hself2.
    clear Hself2.
    destruct (succeeds _) eqn:Hsucc.
    + injection Hrun as _ <-. exists [user_agent self]. split_and!; try done.
      * intros _. simpl. by rewrite Hua.
      * lia.
      * simpl. lia.
    + destruct (forbidden _ && _) eqn:Hrot.
      * apply andb_true_iff in Hrot as [_ Hmore]. apply Z.ltb_lt in Hmore.
        assert (budget ≠ 0%nat) as Hbudget by lia.
        apply IH in Hrun as (uas & Hsent' & Hne & _ & Hnaps & Hlast & Hpicks); [|lia].
        specialize (Hne Hbudget). specialize (Hlast Hne).
        change (sent (rotate_user_agent env user_agents self2)) with (sent self2) in Hsent'.
        change (naps (rotate_user_agent env user_agents self2)) with (naps self2) in Hnaps.
        change (picks (rotate_user_agent env user_agents self2)) with (S (picks self2))
          in Hpicks.
        destruct (decide (S j = 0%nat)); [lia|].
        exists (user_agent self :: uas). split_and!; try done.
        -- by rewrite Hsent', Hsent, <- app_assoc.
        -- rewrite Hnaps, Hnaps2. destruct (decide (j = 0%nat)); simpl; lia.
        -- intros _. by destruct uas.
        -- lia.
        -- destruct uas; [done|]. simpl in *. lia.
      * apply IH in Hrun as (uas & Hsent' & Hne & Hnil & Hnaps & Hlast & Hpicks); [|lia].
        destruct (decide (S j = 0%nat)); [lia|].
        exists (user_agent self :: uas). split_and!; try done.
        -- by rewrite Hsent', Hsent, <- app_assoc.
        -- rewrite Hnaps, Hnaps2. destruct (decide (j = 0%nat)); simpl; lia.
        -- intros _. destruct uas as [|ua uas].
           ++ rewrite (Hnil eq_refl). simpl. by rewrite Hua.
           ++ by apply Hlast.
        -- lia.
        -- simpl. destruct uas; simpl in *; lia.
Qed.

End FetchCounters.
(** The loop of a call, from attempt 0. *)
Lemma range_attempts (max_retries : Z) :
  range max_retries = Z.of_nat <$> seq 0 (Z.to_nat max_retries)
  ∧ (Z.to_nat max_retries ≠ 0%nat →
     Z.of_nat (0 + Z.to_nat max_retries) = max_retries).
Proof. split; [done | lia]. Qed.

(** X1. The fetcher does not touch the table, the url of the tracker or
    the count of inserts, whatever the replies. *)
Theorem fetcher_leaves_store
    (env : Env) (target : string) (max_retries : Z) (self : ApartmentTracker) :
  let self' := snd (get_page_with_retry env target max_retries self) in
  db self' = db self ∧ url self' = url self ∧ inserts self' = inserts self.
Proof. apply get_page_with_retry_frame. Qed.

(** X2. The fetcher waits once before every request but the first: the
    number of waits of a call is the number of its requests minus one
    (zero when it sends none). *)
Theorem fetcher_waits_between_requests
    (env : Env) (target : string) (max_retries : Z) (self : ApartmentTracker) :
  let self' := snd (get_page_with_retry env target max_retries self) in
  ∃ uas, sent self' = sent self ++ uas
         ∧ naps self' = (naps self + pred (List.length uas))%nat.
Proof.
  unfold get_page_with_retry.
  destruct (retry_loop env target max_retries (range max_retries) self)
    as [res self'] eqn:Hrun.
  destruct (range_attempts max_retries) as [Hrange Hmax]. rewrite Hrange in Hrun.
  apply retry_loop_counters in Hrun as (uas & Hsent & _ & _ & Hnaps & _); [|done].
  exists uas. by destruct res.
Qed.

(** X3. A call picks a new header at most once between two requests, never
    after its last request: when the call ends, the header of the session
    is the header that the last request carried, and a call that sends no
    request leaves the tracker as it is. *)
Theorem fetcher_keeps_last_header
    (env : Env) (target : string) (max_retries : Z) (self : ApartmentTracker) :
  let self' := snd (get_page_with_retry env target max_retries self) in
  ∃ uas, sent self' = sent self ++ uas
         ∧ (uas = [] → self' = self)
         ∧ (uas ≠ [] → last uas = Some (user_agent self'))
         ∧ (picks self ≤ picks self' ≤ picks self + pred (List.length uas))%nat.
Proof.
  unfold get_page_with_retry.
  destruct (retry_loop env target max_retries (range max_retries) self)
    as [res self'] eqn:Hrun.
  destruct (range_attempts max_retries) as [Hrange Hmax]. rewrite Hrange in Hrun.
  apply retry_loop_counters in Hrun as (uas & Hsent & _ & Hnil & _ & Hlast & Hpicks);
    [|done].
  exists uas. by destruct res.
Qed.

(** X4. With [max_retries] zero or negative the fetcher sends no request
    and raises at once, leaving the tracker as it is. *)
Theorem fetcher_without_budget
    (env : Env) (target : string) (max_retries : Z) (self : ApartmentTracker) :
  (max_retries ≤ 0)%Z →
  get_page_with_retry env target max_retries self
  = (Raise (RequestException
              ("Failed to fetch page after " +:+ pretty max_retries +:+ " attempts")),
     self).
Proof.
  intros Hneg. unfold get_page_with_retry, range.
  by replace (Z.to_nat max_retries) with 0%nat by lia.
Qed.

Lemma fetcher_without_budget_witness :
  get_page_with_retry (constant_env 200 (page_of [east_5th_card])) "https://streeteasy.com"
                      0 fresh_tracker
  = (Raise (RequestException "Failed to fetch page after 0 attempts"), fresh_tracker).
Proof.
  apply (fetcher_without_budget (constant_env 200 (page_of [east_5th_card]))
           "https://streeteasy.com" 0 fresh_tracker).
  lia.
Defined.

(** X5. When the server answers request number [k] of a call with status
    200 whatever its header, and [k] is below [max_retries], the call
    returns a response with status 200 after at most [k + 1] requests. *)
Theorem fetcher_returns_when_server_recovers
    (env : Env) (target : string) (max_retries : Z) (self : ApartmentTracker) (k : nat) :
  (Z.of_nat k < max_retries)%Z →
  (∀ ua, succeeds (network env (List.length (sent self) + k) target ua) = true) →
  let '(outcome, self') := get_page_with_retry env target max_retries self in
  (∃ response, outcome = Return response ∧ status_code response = 200%Z)
  ∧ (List.length (sent self') ≤ List.length (sent self) + S k)%nat.
Proof.
  intros Hk Hok. unfold get_page_with_retry.
  destruct (retry_loop env target max_retries (range max_retries) self)
    as [res self'] eqn:Hrun.
  destruct (range_attempts max_retries) as [Hrange Hmax]. rewrite Hrange in Hrun.
  apply retry_loop_trace in Hrun as (uas & Hsent & Hlen & _ & Hfails & _ & Hres); [|done].
  destruct res as [response|].
  - destruct Hres as (ua & _ & _ & Hstatus). split; [by exists response|].
    rewrite Hsent, length_app.
    destruct (decide (S k < List.length uas)%nat) as [Hlong|]; [|lia].
    destruct (lookup_lt_is_Some_2 uas k ltac:(lia)) as [ua' Hua'].
    specialize (Hfails k ua' Hua' Hlong). by rewrite Hok in Hfails.
  - destruct Hres as [Hall Hfail].
    destruct (lookup_lt_is_Some_2 uas k ltac:(lia)) as [ua' Hua'].
    specialize (Hfail k ua' Hua'). by rewrite Hok in Hfail.
Qed.

Lemma fetcher_returns_when_server_recovers_witness :
  let '(outcome, self') :=
    get_page_with_retry (scripted_env [403; 500]%Z (page_of [east_5th_card]))
                        "https://streeteasy.com" 3 fresh_tracker in
  (∃ response, outcome = Return response ∧ status_code response = 200%Z)
  ∧ (List.length (sent self') ≤ List.length (sent fresh_tracker) + 3)%nat.
Proof.
  apply (fetcher_returns_when_server_recovers
           (scripted_env [403; 500]%Z (page_of [east_5th_card]))
           "https://streeteasy.com" 3 fresh_tracker 2).
  - lia.
  - intros ua. reflexivity.
Defined.

(** ** Strings: occurrences, stripping, words *)

Section MoreStrings.

Import PyStr.

#[local] Arguments String.append !_ _ / : simpl nomatch.

Lemma prefix_empty_r sep : String.prefix sep EmptyString = true → sep = EmptyString.
Proof. by destruct sep. Qed.



















End MoreStrings.

(** ** The extractor: cascades and the shape of the fields *)

Lemma first_match_none card selectors :
  first_match card selectors = None ↔ ∀ s, s ∈ selectors → select_one card s = None.
Proof.
  induction selectors as [|sel rest IH]; simpl.
  - split; [by intros _ s ?%elem_of_nil | done].
  - destruct (select_one card sel) as [e|] eqn:Hsel.
    + split; [done|]. intros Hall. by rewrite (Hall sel ltac:(left)) in Hsel.
    + rewrite IH. split.
      * intros Hall s [->|Hs]%elem_of_cons; [done | by apply Hall].
      * intros Hall s Hs. apply Hall. by right.
Qed.

(** X6. A cascade of selectors gives the match of the first selector of
    the list that matches: the selectors before it matched nothing, and the
    selectors after it are not consulted. *)
Theorem first_match_takes_first_selector (card e : Tag) (selectors : list string) :
  first_match card selectors = Some e
  ↔ ∃ before_it sel after_it,
      selectors = before_it ++ sel :: after_it
      ∧ (∀ s, s ∈ before_it → select_one card s = None)
      ∧ select_one card sel = Some e.
Proof.
  induction selectors as [|sel rest IH]; simpl.
  - split; [done|]. intros (pre & s & post & Heq & _). by destruct pre.
  - destruct (select_one card sel) as [e'|] eqn:Hsel.
    + split.
      * intros [= ->]. exists [], sel, rest. split_and!; [done | | done].
        by intros s ?%elem_of_nil.
      * intros (pre & s & post & Heq & Hpre & Hs).
        destruct pre as [|s0 pre]; simpl in Heq; injection Heq as -> ->.
        -- congruence.
        -- by rewrite (Hpre s0 ltac:(left)) in Hsel.
    + rewrite IH. split.
      * intros (pre & s & post & -> & Hpre & Hs). exists (sel :: pre), s, post.
        split_and!; [done | | done].
        intros s' [->|Hs']%elem_of_cons; [done | by apply Hpre].
      * intros (pre & s & post & Heq & Hpre & Hs).
        destruct pre as [|s0 pre]; simpl in Heq; injection Heq as -> ->.
        -- congruence.
        -- exists pre, s, post. split_and!; [done | | done].
           intros s' Hs'. apply Hpre. by right.
Qed.

Lemma clean_price_shape raw :
  clean_price raw = unknown ∨ PyStr.startswith (clean_price raw) "$" = true.
Proof.
  unfold clean_price. destruct (PyStr.search_dollar_amount raw) as [tok|] eqn:Hsearch.
  - apply search_dollar_amount_sound in Hsearch as (_ & ds & _ & _ & -> & _).
    right. unfold PyStr.startswith. simpl. by destruct ds.
  - destruct (PyStr.startswith _ "$") eqn:Hstart; [by right | by left].
Qed.

(** X7. The price of an emitted listing is the sentinel or starts with a
    dollar sign. *)
Theorem emitted_price_is_sentinel_or_dollar
    (self : ApartmentTracker) (card : Tag) (r : Listing.t) :
  scrape_card self card = Some r →
  Listing.price r = unknown ∨ PyStr.startswith (Listing.price r) "$" = true.
Proof.
  intros Hr. apply scrape_card_Some in Hr as (_ & _ & _ & _ & _ & -> & _).
  unfold extract_price. destruct (first_match card price_selectors); [|by left].
  apply clean_price_shape.
Qed.

Lemma emitted_price_is_sentinel_or_dollar_witness :
  Listing.price east_5th_listing = unknown
  ∨ PyStr.startswith (Listing.price east_5th_listing) "$" = true.
Proof.
  apply (emitted_price_is_sentinel_or_dollar fresh_tracker east_5th_card east_5th_listing).
  vm_compute. reflexivity.
Defined.





Lemma scrape_card_image self card r :
  scrape_card self card = Some r →
  Listing.image_url r = snd (title_and_image (find_image card)).
Proof.
  unfold scrape_card. intros Hcard.
  destruct (find_link card) as [link_elem|]; [|done].
  destruct (title_and_image (find_image card)) as [title image_url].
  destruct (extract_beds_baths_sqft card) as [[bedrooms bathrooms] sqft].
  destruct (_ || _); [done|]. by simplify_eq.
Qed.

(** X10. The image url of an emitted listing, when there is one and it is
    not empty, starts with [http]. *)
Theorem emitted_image_url_is_absolute
    (self : ApartmentTracker) (card : Tag) (r : Listing.t) (u : string) :
  scrape_card self card = Some r →
  Listing.image_url r = Some u →
  u = EmptyString ∨ PyStr.startswith u "http" = true.
Proof.
  intros Hr Hu. rewrite (scrape_card_image _ _ _ Hr) in Hu.
  unfold title_and_image in Hu. destruct (find_image card) as [img|]; [|done].
  simpl in Hu. destruct (or_str _ _) as [u0|]; [|done].
  destruct (PyStr.truthy u0) eqn:Htruthy; simpl in Hu.
  - destruct (PyStr.startswith u0 "http") eqn:Hhttp; simpl in Hu; simplify_eq.
    + by right.
    + right. done.
  - simplify_eq. left. by destruct u.
Qed.

Lemma emitted_image_url_is_absolute_witness :
  let card := node [ listing_link "/rental/abc123";
                     ("img.CardImage-module__cardImage__cirIn",
                      [leaf [("alt", "The Eugene 12B"); ("data-src", "/photos/1.jpg")]
                            EmptyString]) ] in
  "https://streeteasy.com/photos/1.jpg" = EmptyString
  ∨ PyStr.startswith "https://streeteasy.com/photos/1.jpg" "http" = true.
Proof.
  apply (emitted_image_url_is_absolute fresh_tracker
           (node [ listing_link "/rental/abc123";
                   ("img.CardImage-module__cardImage__cirIn",
                    [leaf [("alt", "The Eugene 12B"); ("data-src", "/photos/1.jpg")]
                          EmptyString]) ])
           (Listing.mk "ea13ab01c4d660f1b1d33845300089eb" "The Eugene 12B" unknown unknown
                       "https://streeteasy.com/rental/abc123" unknown unknown unknown
                       (Some "https://streeteasy.com/photos/1.jpg"))).
  - vm_compute. reflexivity.
  - reflexivity.
Defined.

Lemma last_text_or_cons d test item items :
  last_text_or d test (item :: items)
  = last_text_or (if test item then get_text_strip item else d) test items.
Proof.
  unfold last_text_or. simpl. destruct (test item); [|done].
  destruct (List.filter test items) as [|item' rest] eqn:Hrest.
  - reflexivity.
  - rewrite last_cons_cons.
    destruct (last (item' :: rest)) eqn:Hlast; [done|]. by apply last_None in Hlast.
Qed.

Lemma classify_item_fields bedrooms bathrooms sqft item :
  classify_item (bedrooms, bathrooms, sqft) item
  = (if names_bedrooms item then get_text_strip item else bedrooms,
     if names_bathrooms item then get_text_strip item else bathrooms,
     if names_area item then get_text_strip item else sqft).
Proof.
  unfold classify_item, names_area, names_bathrooms, names_bedrooms.
  destruct (PyStr.contains "bed" _); [done|].
  destruct (PyStr.contains "bath" _); [done|].
  by destruct (PyStr.contains area_marker _).
Qed.

Lemma fold_classify_items items :
  ∀ bedrooms bathrooms sqft,
    fold_left classify_item items (bedrooms, bathrooms, sqft)
    = (last_text_or bedrooms names_bedrooms items,
       last_text_or bathrooms names_bathrooms items,
       last_text_or sqft names_area items).
Proof.
  induction items as [|item items IH]; intros bedrooms bathrooms sqft; [done|].
  change (fold_left classify_item (item :: items) (bedrooms, bathrooms, sqft))
    with (fold_left classify_item items (classify_item (bedrooms, bathrooms, sqft) item)).
  rewrite classify_item_fields, IH.
  by rewrite !last_text_or_cons.
Qed.

(** X11. Each of bedrooms, bathrooms and sqft is the text of the last item
    of the beds/baths container that names it, and the sentinel when no
    item does; an item is tried for [bed] first, then for [bath], then for
    the area marker, and names the first that it contains. *)
Theorem beds_baths_sqft_are_last_named (card : Tag) :
  extract_beds_baths_sqft card
  = (last_text names_bedrooms (beds_baths_items card),
     last_text names_bathrooms (beds_baths_items card),
     last_text names_area (beds_baths_items card)).
Proof.
  unfold extract_beds_baths_sqft, beds_baths_items, last_text.
  destruct (select_one card beds_baths_selector) as [container|]; [|done].
  apply fold_classify_items.
Qed.

(** A container with two items that name the bedrooms: the last one wins,
    and an item with both words names the bedrooms only. *)
Example studio_and_bath :
  extract_beds_baths_sqft
    (node [ (beds_baths_selector,
             [node [ (beds_baths_item_selector,
                      [leaf [] "1 bed"; leaf [] "2 Beds, 1 Bath"; leaf [] "650 ft"]) ]]) ])
  = ("2 Beds, 1 Bath", unknown, unknown).
Proof. vm_compute. reflexivity. Qed.

(** ** The identity hash: the format of an id *)

Section Digest.

Import MD5.

Local Open Scope Z_scope.

Lemma le_bytes_length n x : List.length (le_bytes n x) = n.
Proof. unfold le_bytes. by rewrite length_map, length_seq. Qed.

Lemma le_bytes_range n x : Forall (λ b, 0 ≤ b < 256) (le_bytes n x).
Proof.
  unfold le_bytes. apply Forall_forall. intros b (k & -> & _)%list_elem_of_fmap.
  change 255 with (Z.ones 8). rewrite Z.land_ones by lia.
  apply Z.mod_pos_bound. lia.
Qed.

Lemma hex_digit_lower x : 0 ≤ x < 16 → is_lower_hex (hex_digit x) = true.
Proof.
  intros Hx. assert (In x (map Z.of_nat (seq 0 16))) as Hin.
  { apply in_map_iff. exists (Z.to_nat x). split; [lia|]. apply in_seq. lia. }
  simpl in Hin. repeat (destruct Hin as [<-|Hin]; [reflexivity|]). done.
Qed.

Lemma hex_length bs : String.length (hex bs) = (2 * List.length bs)%nat.
Proof. induction bs as [|b bs IH]; simpl; [done|]. rewrite IH. lia. Qed.

Lemma hex_lower bs :
  Forall (λ b, 0 ≤ b < 256) bs →
  forallb is_lower_hex (list_ascii_of_string (hex bs)) = true.
Proof.
  induction 1 as [|b bs Hb Hbs IH]; [done|].
  simpl. rewrite IH, !hex_digit_lower; [done | |].
  - apply Z.mod_pos_bound. lia.
  - split; [apply Z.div_pos; lia | apply Z.div_lt_upper_bound; lia].
Qed.

Lemma digest_bytes msg :
  List.length (digest msg) = 16%nat ∧ Forall (λ b, 0 ≤ b < 256) (digest msg).
Proof.
  unfold digest. split.
  - by rewrite !length_app, !le_bytes_length.
  - repeat apply Forall_app_2; apply le_bytes_range.
Qed.

End Digest.

(** X12. An id has 32 characters, all of them digits of lower-case
    hexadecimal, whatever the title, the address and the price. *)
Theorem listing_id_is_32_hex_digits
    (self : ApartmentTracker) (title address price : string) :
  String.length (generate_listing_id self title address price) = 32%nat
  ∧ forallb is_lower_hex
      (list_ascii_of_string (generate_listing_id self title address price)) = true.
Proof.
  unfold generate_listing_id, MD5.hexdigest.
  destruct (digest_bytes (encode (title +:+ "_" +:+ address +:+ "_" +:+ price)))
    as [Hlen Hrange].
  split; [by rewrite hex_length, Hlen | by apply hex_lower].
Qed.

(** ** The extractor: one listing per card at most *)

(** X13. The titles of the listings of a page are titles of its cards, in
    the order of the cards and at most one for each card. *)
Theorem emitted_titles_follow_cards (self : ApartmentTracker) (soup : Tag) :
  (Listing.title <$> scrape_page self soup)
    `sublist_of` (card_title <$> select soup card_selector).
Proof.
  rewrite scrape_page_cards.
  induction (select soup card_selector) as [|card cards IH]; simpl; [constructor|].
  destruct (scrape_card self card) as [r|] eqn:Hr.
  - apply scrape_card_Some in Hr as (_ & _ & _ & Htitle & _).
    rewrite fmap_cons, Htitle. by constructor.
  - by constructor.
Qed.

(** ** The cycle: what is stored and what is reported *)

Section CollectStore.

Variable env : Env.

(** What the loop stores: the listings appended are a selection of the
    listings of the page in their order, their ids are the keys added to
    the table, each of them is stored as it is, and every listing of the
    page that was unknown has its id among theirs. *)
Lemma collect_new_store listings :
  ∀ new_listings self result self',
    collect_new env listings new_listings self = (result, self') →
    ∃ added,
      result = new_listings ++ added
      ∧ added `sublist_of` listings
      ∧ dom (db self') = dom (db self) ∪ list_to_set (Listing.id <$> added)
      ∧ size (db self') = (size (db self) + List.length added)%nat
      ∧ inserts self' = (inserts self + List.length added)%nat
      ∧ (∀ l, l ∈ added → ∃ ts, db self' !! Listing.id l = Some (mkRow l ts))
      ∧ (∀ l, l ∈ listings → db self !! Listing.id l = None →
              Listing.id l ∈ Listing.id <$> added)
      ∧ (url self', user_agent self', sent self', naps self', picks self')
        = (url self, user_agent self, sent self, naps self, picks self).
Proof.
  induction listings as [|l rest IH]; intros acc self result self' Hrun.
  - simpl in Hrun. simplify_eq. exists []. rewrite app_nil_r.
    split_and!;
      first [ done | constructor | by intros l ?%elem_of_nil
            | simpl; lia | by rewrite fmap_nil, list_to_set_nil, union_empty_r_L ].
  - simpl in Hrun. destruct (is_new_listing self (Listing.id l)) eqn:Hnew.
    + apply is_new_listing_true in Hnew.
      pose proof (collect_new_spec env _ _ _ _ _ Hrun) as (Hkeep & _).
      apply IH in Hrun
        as (added & -> & Hsub & Hdom & Hsize & Hins & Hrows & Hall & Hframe).
      assert (db (save_listing env l self)
              = <[Listing.id l := mkRow l (clock env (inserts self))]> (db self)) as Hdb.
      { simpl. by apply insert_or_ignore_absent. }
      rewrite Hdb in Hdom, Hsize, Hall.
      exists (l :: added). rewrite <- app_assoc. split_and!; try done.
      * by constructor.
      * rewrite Hdom, dom_insert_L, fmap_cons, list_to_set_cons.
        by rewrite (comm_L (∪) _ (dom (db self))), <- (assoc_L (∪)).
      * rewrite Hsize, map_size_insert_None by done. simpl. lia.
      * rewrite Hins. simpl. lia.
      * intros l' [->|Hl']%elem_of_cons; [|by apply Hrows].
        exists (clock env (inserts self)). apply Hkeep.
        rewrite Hdb. apply lookup_insert_eq.
      * intros l' Hl' Hnone. rewrite fmap_cons.
        destruct (decide (Listing.id l' = Listing.id l)) as [->|Hne]; [left|].
        apply elem_of_cons in Hl' as [->|Hl']; [done|].
        right. apply Hall; [done|]. by rewrite lookup_insert_ne.
    + apply is_new_listing_false in Hnew.
      apply IH in Hrun
        as (added & -> & Hsub & Hdom & Hsize & Hins & Hrows & Hall & Hframe).
      exists added. split_and!; try done.
      * by constructor.
      * intros l' [->|Hl']%elem_of_cons Hnone; [|by apply Hall].
        destruct Hnew as [x Hx]. congruence.
Qed.

End CollectStore.

(** A cycle is the loop over the scraped listings. *)
Lemma check_for_new_listings_loop env self :
  check_for_new_listings env self
  = collect_new env (scrape_listings env self).1 [] (scrape_listings env self).2.
Proof.
  unfold check_for_new_listings. by destruct (scrape_listings env self) as [[|l rest] s].
Qed.

(** Scraping leaves the table and the count of inserts as they are. *)
Lemma scrape_listings_frame env self :
  db (scrape_listings env self).2 = db self
  ∧ inserts (scrape_listings env self).2 = inserts self.
Proof.
  unfold scrape_listings, scrape_listings_try.
  destruct (get_page_with_retry_frame env (url self) default_max_retries self)
    as (Hdb & _ & Hins).
  destruct (get_page_with_retry env (url self) default_max_retries self)
    as [[response|e] s]; simpl in *; done.
Qed.

(** Every scraped listing has a row after the cycle. *)
Lemma cycle_stored env self l :
  l ∈ fst (scrape_listings env self) →
  is_Some (db (snd (check_for_new_listings env self)) !! Listing.id l).
Proof.
  rewrite check_for_new_listings_loop.
  destruct (collect_new env _ [] _) as [new_listings self'] eqn:Hrun.
  apply collect_new_spec in Hrun as (_ & Hstored & _). apply Hstored.
Qed.

(** X14. A cycle only adds rows: every row of the table is still there,
    unchanged, after the cycle, and every listing that the cycle scraped
    has a row under its id. *)
Theorem cycle_keeps_rows_and_stores_scraped (env : Env) (self : ApartmentTracker) :
  let self' := snd (check_for_new_listings env self) in
  (∀ key x, db self !! key = Some x → db self' !! key = Some x)
  ∧ (∀ l, l ∈ fst (scrape_listings env self) → is_Some (db self' !! Listing.id l)).
Proof.
  rewrite check_for_new_listings_loop.
  destruct (scrape_listings_frame env self) as [Hdb _].
  destruct (collect_new env _ [] _) as [new_listings self'] eqn:Hrun.
  apply collect_new_spec in Hrun as (Hkeep & Hstored & _).
  rewrite Hdb in Hkeep. by split.
Qed.

(** X15. The new listings of a cycle are a selection of the scraped
    listings in their order; each of them had no row under its id when the
    cycle started, and every scraped listing without such a row has its id
    among theirs. *)
Theorem new_listings_are_the_unknown_listings (env : Env) (self : ApartmentTracker) :
  let new_listings := fst (check_for_new_listings env self) in
  new_listings `sublist_of` fst (scrape_listings env self)
  ∧ (∀ l, l ∈ new_listings → db self !! Listing.id l = None)
  ∧ (∀ l, l ∈ fst (scrape_listings env self) → db self !! Listing.id l = None →
          Listing.id l ∈ Listing.id <$> new_listings).
Proof.
  rewrite check_for_new_listings_loop.
  destruct (scrape_listings_frame env self) as [Hdb _].
  destruct (collect_new env _ [] _) as [new_listings self'] eqn:Hrun.
  pose proof (collect_new_spec env _ _ _ _ _ Hrun) as (_ & _ & added & Heq & _ & Hadded).
  apply collect_new_store in Hrun as (added' & Heq' & Hsub & _ & _ & _ & _ & Hall & _).
  simpl in Heq, Heq'. subst added added'. rewrite Hdb in Hadded, Hall.
  simpl. split_and!; [done | | done].
  intros l Hl. by apply Hadded.
Qed.

(** X16. Every new listing of a cycle is in the table after the cycle,
    under its id and with the fields with which it is reported. *)
Theorem new_listings_are_stored_as_reported (env : Env) (self : ApartmentTracker) :
  let '(new_listings, self') := check_for_new_listings env self in
  ∀ l, l ∈ new_listings → ∃ ts, db self' !! Listing.id l = Some (mkRow l ts).
Proof.
  rewrite check_for_new_listings_loop.
  destruct (collect_new env _ [] _) as [new_listings self'] eqn:Hrun.
  apply collect_new_store in Hrun as (added & -> & _ & _ & _ & _ & Hrows & _).
  done.
Qed.

(** X17. A cycle adds one row for each new listing and nothing else: the
    keys of the table after the cycle are the keys before it and the ids
    of the new listings, and the table and the count of inserts both grow
    by the number of new listings. *)
Theorem cycle_inserts_one_row_per_new_listing (env : Env) (self : ApartmentTracker) :
  let '(new_listings, self') := check_for_new_listings env self in
  dom (db self') = dom (db self) ∪ list_to_set (Listing.id <$> new_listings)
  ∧ size (db self') = (size (db self) + List.length new_listings)%nat
  ∧ inserts self' = (inserts self + List.length new_listings)%nat.
Proof.
  rewrite check_for_new_listings_loop.
  destruct (scrape_listings_frame env self) as [Hdb Hins].
  destruct (collect_new env _ [] _) as [new_listings self'] eqn:Hrun.
  apply collect_new_store in Hrun as (added & -> & _ & Hdom & Hsize & Hinserts & _).
  rewrite Hdb in Hdom, Hsize. rewrite Hins in Hinserts. done.
Qed.

(** X18. A page on which nothing matches the card selector gives a cycle
    without new listings that leaves the table as it is. *)
Theorem page_without_cards_changes_nothing
    (env : Env) (self : ApartmentTracker) (page : Tag) :
  fetched_page env self = Some page →
  select page card_selector = [] →
  fst (check_for_new_listings env self) = []
  ∧ db (snd (check_for_new_listings env self)) = db self.
Proof.
  intros Hpage Hcards. rewrite check_for_new_listings_loop.
  destruct (scrape_listings_fetched env self) as [Hlist Hdb].
  rewrite Hpage in Hlist. unfold scrape_page in Hlist. rewrite Hcards in Hlist.
  rewrite Hlist. done.
Qed.

Lemma page_without_cards_changes_nothing_witness :
  let env := constant_env 200 (node [ (".price", [leaf [] "$2,500"]) ]) in
  fst (check_for_new_listings env fresh_tracker) = []
  ∧ db (snd (check_for_new_listings env fresh_tracker)) = db fresh_tracker.
Proof.
  apply (page_without_cards_changes_nothing
           (constant_env 200 (node [ (".price", [leaf [] "$2,500"]) ])) fresh_tracker
           (node [ (".price", [leaf [] "$2,500"]) ])); reflexivity.
Defined.

(** X19. A listing scraped in one cycle is not reported by a later cycle,
    whatever the later page, as long as the table still has the rows that
    the first cycle left. *)
Theorem scraped_listing_is_not_reported_later
    (env1 env2 : Env) (self1 self2 : ApartmentTracker) (l1 l2 : Listing.t) :
  (∀ key x, db (snd (check_for_new_listings env1 self1)) !! key = Some x →
            db self2 !! key = Some x) →
  l1 ∈ fst (scrape_listings env1 self1) →
  l2 ∈ fst (check_for_new_listings env2 self2) →
  Listing.id l1 ≠ Listing.id l2.
Proof.
  intros Hkept Hl1 Hl2 Hid.
  destruct (cycle_stored env1 self1 l1 Hl1) as [x Hx].
  apply Hkept in Hx.
  rewrite check_for_new_listings_loop in Hl2.
  destruct (scrape_listings_frame env2 self2) as [Hdb _].
  destruct (collect_new env2 _ [] _) as [new_listings self'] eqn:Hrun.
  apply collect_new_spec in Hrun as (_ & _ & added & -> & _ & Hadded).
  destruct (Hadded l2 Hl2) as [_ Hnone]. rewrite Hdb in Hnone. congruence.
Qed.

Lemma scraped_listing_is_not_reported_later_witness :
  Listing.id east_5th_listing ≠ Listing.id bare_listing.
Proof.
  apply (scraped_listing_is_not_reported_later
           (constant_env 200 (page_of [east_5th_card]))
           (constant_env 200 (page_of [east_5th_card; bare_card]))
           fresh_tracker
           (snd (check_for_new_listings (constant_env 200 (page_of [east_5th_card]))
                                        fresh_tracker))).
  - intros key x Hx. exact Hx.
  - vm_compute. constructor.
  - vm_compute. constructor.
Defined.

(** X20. Saving a listing whose id has no row stores the listing under its
    id with the timestamp of the clock, and saving never touches the row
    of another id. *)
Theorem save_listing_stores_unknown
    (env : Env) (self : ApartmentTracker) (listing : Listing.t) :
  db self !! Listing.id listing = None →
  let self' := save_listing env listing self in
  db self' !! Listing.id listing = Some (mkRow listing (clock env (inserts self)))
  ∧ is_new_listing self' (Listing.id listing) = false
  ∧ (∀ key, key ≠ Listing.id listing → db self' !! key = db self !! key).
Proof.
  intros Hnone self'. subst self'. simpl.
  rewrite insert_or_ignore_absent by done. split_and!.
  - apply lookup_insert_eq.
  - unfold is_new_listing. simpl. rewrite insert_or_ignore_absent by done.
    by rewrite lookup_insert_eq.
  - intros key Hkey. by rewrite lookup_insert_ne.
Qed.

Lemma save_listing_stores_unknown_witness :
  let env := constant_env 200 (page_of []) in
  let self' := save_listing env east_5th_listing fresh_tracker in
  db self' !! Listing.id east_5th_listing
  = Some (mkRow east_5th_listing (clock env (inserts fresh_tracker)))
  ∧ is_new_listing self' (Listing.id east_5th_listing) = false
  ∧ (∀ key, key ≠ Listing.id east_5th_listing →
            db self' !! key = db fresh_tracker !! key).
Proof.
  apply (save_listing_stores_unknown (constant_env 200 (page_of [])) fresh_tracker
           east_5th_listing).
  reflexivity.
Defined.

(** ** The schema *)

Lemma has_column_app col cols extra :
  has_column col (cols ++ extra) = has_column col cols || has_column col extra.
Proof. unfold has_column. apply existsb_app. Qed.

(** X21. [init_database] only adds to the schema: the columns of an
    existing table are kept in their order, a missing table gets the nine
    columns of the source, the column [image_url] is there afterwards, and
    running it again changes nothing. *)
Theorem init_database_is_additive (schema : option (list string)) :
  let cols := init_database schema in
  has_column "image_url" cols = true
  ∧ init_database (Some cols) = cols
  ∧ (∀ old, schema = Some old →
            cols = old ∨ (has_column "image_url" old = false
                          ∧ cols = old ++ ["image_url"]))
  ∧ (schema = None → cols = created_columns ++ ["image_url"]).
Proof.
  unfold init_database, add_column. split_and!.
  - destruct (has_column "image_url" (create_table_if_not_exists schema)) eqn:Hhas;
      [done|]. by rewrite has_column_app, orb_true_r.
  - destruct (has_column "image_url" (create_table_if_not_exists schema)) eqn:Hhas.
    + simpl. by rewrite Hhas.
    + simpl. by rewrite has_column_app, orb_true_r.
  - intros old ->. simpl.
    destruct (has_column "image_url" old) eqn:Hhas; [by left | by right].
  - by intros ->.
Qed.

(** A table that has the column under another spelling is left as it is. *)
Example init_database_on_spelled_column :
  init_database (Some ["id"; "title"; "IMAGE_URL"]) = ["id"; "title"; "IMAGE_URL"].
Proof. reflexivity. Qed.

(** ** More on the fields of a listing *)

(** X22. Resolving a link twice is resolving it once: a link that starts
    with [http] is kept as it is, and a resolved link starts with [http]. *)
Theorem absolute_is_idempotent (link : string) :
  absolute (absolute link) = absolute link
  ∧ (PyStr.startswith link "http" = true → absolute link = link).
Proof.
  split.
  - unfold absolute at 1. by rewrite absolute_starts_with_http.
  - intros Hlink. unfold absolute. by rewrite Hlink.
Qed.

(** X23. Every listing that the extractor emits carries the id of its own
    title, address and price. *)
Theorem emitted_id_matches_fields (env : Env) (self : ApartmentTracker) (l : Listing.t) :
  l ∈ fst (scrape_listings env self) →
  Listing.id l
  = MD5.hexdigest
      (encode (Listing.title l +:+ "_" +:+ Listing.address l +:+ "_" +:+ Listing.price l)).
Proof. intros Hl. by rewrite (scrape_listings_ids env self l Hl). Qed.

Lemma emitted_id_matches_fields_witness :
  Listing.id east_5th_listing
  = MD5.hexdigest
      (encode (Listing.title east_5th_listing +:+ "_" +:+ Listing.address east_5th_listing
               +:+ "_" +:+ Listing.price east_5th_listing)).
Proof.
  apply (emitted_id_matches_fields (constant_env 200 (page_of [east_5th_card]))
           fresh_tracker east_5th_listing).
  vm_compute. constructor.
Defined.

Section Stripped.

Import PyStr.

Lemma rstrip_idempotent s : rstrip (rstrip s) = rstrip s.
Proof.
  induction s as [|c s IH]; [done|].
  simpl. destruct (is_space c && is_empty (rstrip s)) eqn:Hc; [done|].
  simpl. by rewrite IH, Hc.
Qed.

Lemma lstrip_head s :
  lstrip s = EmptyString ∨ ∃ c s', lstrip s = String c s' ∧ is_space c = false.
Proof.
  induction s as [|c s IH]; simpl; [by left|].
  destruct (is_space c) eqn:Hc; [done|]. right. by exists c, s.
Qed.

Lemma strip_idempotent s : strip (strip s) = strip s.
Proof.
  unfold strip. destruct (lstrip_head s) as [->|(c & s' & -> & Hc)]; [done|].
  simpl. rewrite Hc. simpl. rewrite Hc. simpl.
  by rewrite rstrip_idempotent, Hc.
Qed.

End Stripped.

(** X24. The title read from an image element has no whitespace around it:
    stripping it again gives the same title. *)
Theorem image_title_is_stripped (img_elem : option Tag) :
  PyStr.strip (fst (title_and_image img_elem)) = fst (title_and_image img_elem).
Proof.
  unfold title_and_image. destruct img_elem as [img|]; [|done]. simpl.
  destruct (PyStr.truthy _); [|done].
  destruct (PyStr.contains "image" _); apply strip_idempotent.
Qed.

(** ** The cycle: requests and waits *)


